(** * The external-control client of noodles.gl

    A shallow embedding of [examples/external-control/create_pipeline.py]:
    the class [NoodlesClient], a blocking request/response client that
    talks JSON over a WebSocket.

    The client is sequential Python.  Its methods are embedded as
    functions in a state-and-exception monad over a machine state made of
    the client object ([self]) and of the world around it: the wall
    clock, the sockets, the text the peers will deliver, the text already
    transmitted and the standard output.

    The libraries the script calls ([time], [json], [websocket]) are not
    part of it.  They are modelled as follows.  Clock readings are exact
    rationals, in seconds.  The clock stands still while the script
    computes and moves while [recv] waits: every entry of a socket's
    inbound text carries the reading of the clock at which [recv] hands
    it over.  A [recv] on a socket whose peer has nothing more to say
    never returns.  JSON text is identified with the value it denotes. *)

From Stdlib Require Import QArith Lqa Ascii.
From stdpp Require Import base strings list gmap pretty sorting.

Set Default Proof Using "Type".

(** ** JSON documents *)

(** The values [json.loads] produces and [json.dumps] accepts.  A Python
    [dict] with string keys is a finite map. *)
#[local] Unset Elimination Schemes.
Inductive json : Type :=
  | JNull
  | JBool (b : bool)
  | JInt (n : Z)
  | JFloat (q : Q)
  | JStr (s : string)
  | JArr (items : list json)
  | JObj (fields : gmap string json).
#[local] Set Elimination Schemes.

(** A [dict] display [{k1: v1, ..., kn: vn}]; the keys of every display
    of the script are distinct. *)
Definition dict (kvs : list (string * json)) : json :=
  JObj (list_to_map kvs).

(** ** Exceptions *)

Inductive exn : Type :=
  | Exception_ (msg : string)
  | TimeoutError (msg : string)
  | KeyError (key : string)
  | TypeError
  | AttributeError (attr : string)
  | JSONDecodeError
  | WebSocketTimeoutException
  | WebSocketConnectionClosedException
  | ConnectionRefusedError.

(** ** The world outside the script *)

(** A text frame.  [json.dumps] and [json.loads] are library code: a
    frame that is a JSON document is identified with the value it
    denotes, any other text is [Garbage]. *)
Inductive wire_text : Type :=
  | Json (j : json)
  | Garbage (raw : string).

(** What one call of [recv] ends with: a frame, the socket's own receive
    timeout, or the loss of the connection. *)
Inductive arrival : Type :=
  | Deliver (text : wire_text)
  | RecvTimeout
  | Dropped.

(** A socket.  [inbound] is all its peer will ever make [recv] end with,
    in order, each entry stamped with the reading of the wall clock at
    the moment [recv] hands it over.  When nothing is left the peer
    stays silent. *)
Record channel : Type := Channel {
  peer : string;
  is_open : bool;
  inbound : list (Q * arrival)
}.

(** The fate of one call of [websocket.create_connection]. *)
Inductive dial : Type :=
  | Refused
  | Accepted (script : list (Q * arrival)).

(** [chans] holds every socket ever created, a socket's handle being its
    index; [outbox] is the chronological log of the frames handed to
    [send], each with the handle it was sent on. *)
Record world : Type := World {
  now : Q;
  chans : list channel;
  dials : list dial;
  outbox : list (nat * wire_text);
  stdout : list string
}.

(** ** The client object *)

Record NoodlesClient : Type := Client {
  host : string;
  port : Z;
  debug : bool;
  ws : option nat;
  message_id : Z
}.

(** [NoodlesClient.__init__] *)
Definition __init__ (host : string) (port : Z) (debug : bool) : NoodlesClient :=
  {| host := host; port := port; debug := debug; ws := None; message_id := 0 |}.

Record state : Type := State {
  self : NoodlesClient;
  env : world
}.

Definition set_ws (v : option nat) (c : NoodlesClient) : NoodlesClient :=
  {| host := host c; port := port c; debug := debug c; ws := v;
     message_id := message_id c |}.

Definition set_message_id (v : Z) (c : NoodlesClient) : NoodlesClient :=
  {| host := host c; port := port c; debug := debug c; ws := ws c;
     message_id := v |}.

Definition set_now (t : Q) (w : world) : world :=
  {| now := t; chans := chans w; dials := dials w; outbox := outbox w;
     stdout := stdout w |}.

Definition set_chans (cs : list channel) (w : world) : world :=
  {| now := now w; chans := cs; dials := dials w; outbox := outbox w;
     stdout := stdout w |}.

Definition set_dials (ds : list dial) (w : world) : world :=
  {| now := now w; chans := chans w; dials := ds; outbox := outbox w;
     stdout := stdout w |}.

Definition set_outbox (o : list (nat * wire_text)) (w : world) : world :=
  {| now := now w; chans := chans w; dials := dials w; outbox := o;
     stdout := stdout w |}.

Definition set_stdout (o : list string) (w : world) : world :=
  {| now := now w; chans := chans w; dials := dials w; outbox := outbox w;
     stdout := o |}.

Definition set_inbound (i : list (Q * arrival)) (c : channel) : channel :=
  {| peer := peer c; is_open := is_open c; inbound := i |}.

Definition set_is_open (b : bool) (c : channel) : channel :=
  {| peer := peer c; is_open := b; inbound := inbound c |}.

(** ** The monad of Python statements *)

(** A statement returns, raises, or never finishes ([Hang]: a [recv]
    that blocks for ever). *)
Inductive outcome (A : Type) : Type :=
  | Return (a : A)
  | Raise (e : exn)
  | Hang.
Arguments Return {A} a.
Arguments Raise {A} e.
Arguments Hang {A}.

Definition M (A : Type) : Type := state → outcome A * state.

Definition ret {A} (a : A) : M A := λ s, (Return a, s).
Definition raise {A} (e : exn) : M A := λ s, (Raise e, s).

Definition bind {A B} (m : M A) (k : A → M B) : M B :=
  λ s, match m s with
       | (Return a, s') => k a s'
       | (Raise e, s') => (Raise e, s')
       | (Hang, s') => (Hang, s')
       end.

Notation "x <- m ;; k" := (bind m (λ x, k))
  (at level 100, m at next level, right associativity).
Notation "m ;;; k" := (bind m (λ _, k))
  (at level 100, right associativity).

(** [try: body except ...: handler]; [handler e] is [None] for an
    exception that no [except] clause matches. *)
Definition try_except {A} (body : M A) (handler : exn → option (M A)) : M A :=
  λ s, match body s with
       | (Raise e, s') =>
           match handler e with
           | Some h => h s'
           | None => (Raise e, s')
           end
       | r => r
       end.

Definition get_self : M NoodlesClient := λ s, (Return (self s), s).
(** [self.ws = v] and [self.message_id = v] *)
Definition assign_ws (v : option nat) : M unit :=
  λ s, (Return tt, {| self := set_ws v (self s); env := env s |}).
Definition assign_message_id (v : Z) : M unit :=
  λ s, (Return tt, {| self := set_message_id v (self s); env := env s |}).
Definition get_env : M world := λ s, (Return (env s), s).
Definition put_env (w : world) : M unit :=
  λ s, (Return tt, {| self := self s; env := w |}).

(** ** Library calls *)

(** [time.time()]: the clock is read without moving it; it moves while
    [recv] waits. *)
Definition time_time : M Q :=
  w <- get_env ;; ret (now w).

(** [print(text)], on a standard output that is open and encodes
    [text].  On text that the output cannot encode [print] raises, which
    the model does not follow: what is stated of the flag [debug] and of
    a complete run of [main], where text of the server is printed, is
    stated of [plain] text. *)
Definition print (text : string) : M unit :=
  w <- get_env ;; put_env (set_stdout (stdout w ++ [text]) w).

(** [websocket.create_connection(url)] *)
Definition create_connection (url : string) : M nat :=
  w <- get_env ;;
  match dials w with
  | Accepted script :: ds =>
      put_env (set_dials ds (set_chans
        (chans w ++ [{| peer := url; is_open := true; inbound := script |}]) w)) ;;;
      ret (length (chans w))
  | Refused :: ds =>
      put_env (set_dials ds w) ;;; raise ConnectionRefusedError
  | [] => raise ConnectionRefusedError
  end.

(** [sock.send(text)] *)
Definition ws_send (text : wire_text) (h : nat) : M unit :=
  w <- get_env ;;
  match chans w !! h with
  | Some c =>
      if is_open c then put_env (set_outbox (outbox w ++ [(h, text)]) w)
      else raise WebSocketConnectionClosedException
  | None => raise WebSocketConnectionClosedException
  end.

(** [sock.recv()] *)
Definition ws_recv (h : nat) : M wire_text :=
  w <- get_env ;;
  match chans w !! h with
  | Some c =>
      if is_open c then
        match inbound c with
        | [] => λ s, (Hang, s)
        | (t, a) :: rest =>
            match a with
            | Deliver text =>
                put_env (set_now t (set_chans (<[h := set_inbound rest c]> (chans w)) w)) ;;;
                ret text
            | RecvTimeout =>
                put_env (set_now t (set_chans (<[h := set_inbound rest c]> (chans w)) w)) ;;;
                raise WebSocketTimeoutException
            | Dropped =>
                put_env (set_now t (set_chans
                  (<[h := set_is_open false (set_inbound rest c)]> (chans w)) w)) ;;;
                raise WebSocketConnectionClosedException
            end
        end
      else raise WebSocketConnectionClosedException
  | None => raise WebSocketConnectionClosedException
  end.

(** [sock.close()]: closing a closed socket does nothing. *)
Definition ws_close (h : nat) : M unit :=
  w <- get_env ;;
  match chans w !! h with
  | Some c => put_env (set_chans (<[h := set_is_open false c]> (chans w)) w)
  | None => ret tt
  end.

(** [json.dumps(value)] and [json.loads(text)] *)
Definition json_dumps (value : json) : wire_text := Json value.

Definition json_loads (text : wire_text) : M json :=
  match text with
  | Json j => ret j
  | Garbage _ => raise JSONDecodeError
  end.

(** ** Python expressions *)

(** [d.get(key)]: [None] for a missing key; only a [dict] has [get]. *)
Definition dict_get (d : json) (key : string) : M json :=
  match d with
  | JObj fields => ret (default JNull (fields !! key))
  | _ => raise (AttributeError "get")
  end.

(** [d[key]] for a string [key] *)
Definition subscript (d : json) (key : string) : M json :=
  match d with
  | JObj fields =>
      match fields !! key with
      | Some v => ret v
      | None => raise (KeyError key)
      end
  | _ => raise TypeError
  end.

(** [v == s] for a string [s]: no other kind of value equals a string. *)
Definition eq_str (v : json) (s : string) : bool :=
  match v with
  | JStr s' => String.eqb s' s
  | _ => false
  end.

(** [x < y] on clock readings *)
Definition Qltb (x y : Q) : bool := negb (Qle_bool y x).

(** [int(x)]: truncation towards zero *)
Definition int_of_float (x : Q) : Z := Z.quot (Qnum x) (Z.pos (Qden x)).

(** How Python writes values into an f-string.  The text of a float and
    of a value that is not a string are left to the interpreter. *)
Class PyFormat : Type := {
  float_str : Q → string;
  py_repr : json → string
}.

(** [self.ws.attr(...)]: [None] has no attributes. *)
Definition on_ws {A} (attr : string) (call : nat → M A) : M A :=
  c <- get_self ;;
  match ws c with
  | Some h => call h
  | None => raise (AttributeError attr)
  end.

(** The receives the peer of the client's socket still has in store. *)
Definition receives_left (s : state) : nat :=
  match ws (self s) with
  | Some h =>
      match chans (env s) !! h with
      | Some c => length (inbound c)
      | None => 0
      end
  | None => 0
  end.

Section client.
Context `{PyFormat}.

(** [f"{v}"] *)
Definition py_str (v : json) : string :=
  match v with
  | JStr s => s
  | _ => py_repr v
  end.

(** ** The methods of [NoodlesClient] *)

(** The identifier of the [n]-th message, sent at clock reading [t]:
    [f"py-{self.message_id}-{time.time()}"] *)
Definition make_id (n : Z) (t : Q) : string :=
  "py-" +:+ pretty n +:+ "-" +:+ float_str t.

Definition send_message (msg_type : string) (payload : json) : M string :=
  c <- get_self ;;
  assign_message_id (message_id c + 1) ;;;
  c <- get_self ;;
  t1 <- time_time ;;
  t2 <- time_time ;;
  let ident := make_id (message_id c) t1 in
  let message := dict [
    ("id", JStr ident);
    ("type", JStr msg_type);
    ("timestamp", JInt (int_of_float (t2 * 1000)));
    ("payload", payload)
  ] in
  (if debug c then print ("Sending: " +:+ msg_type) else ret tt) ;;;
  on_ws "send" (ws_send (json_dumps message)) ;;;
  ret ident.

Definition connect : M unit :=
  c <- get_self ;;
  let url := "ws://" +:+ host c +:+ ":" +:+ pretty (port c) in
  (if debug c then print ("Connecting to " +:+ url) else ret tt) ;;;
  h <- create_connection url ;;
  assign_ws (Some h) ;;;
  t <- time_time ;;
  send_message "connect" (dict [
    ("clientId", JStr ("python-client-" +:+ float_str t));
    ("version", JStr "1.0.0");
    ("capabilities", JArr [JStr "pipeline"; JStr "tools"; JStr "state"])
  ]) ;;;
  c <- get_self ;;
  (if debug c then print "Connected!" else ret tt).

Definition disconnect : M unit :=
  c <- get_self ;;
  match ws c with
  | Some h =>
      ws_close h ;;;
      assign_ws None
  | None => ret tt
  end.

(** The [while] loop of [wait_for_response].  Every turn that does not
    leave the loop takes one entry of the socket's [inbound], so
    [wait_for_response] starts it with more fuel than there are entries
    and the case [O] is never reached. *)
Fixpoint wait_loop (fuel : nat) (message_id : string) (start_time : Q)
    (timeout : Z) : M json :=
  match fuel with
  | O => λ s, (Hang, s)
  | S fuel' =>
      t <- time_time ;;
      if Qltb (t - start_time) (inject_Z timeout) then
        found <- try_except
          (response <- on_ws "recv" ws_recv ;;
           data <- json_loads response ;;
           c <- get_self ;;
           (if debug c then
              ty <- dict_get data "type" ;;
              print ("Received: " +:+ py_str ty)
            else ret tt) ;;;
           ident <- dict_get data "id" ;;
           if eq_str ident message_id then ret (Some data) else ret None)
          (λ e, match e with
                | WebSocketTimeoutException => Some (ret None)
                | _ => None
                end) ;;
        match found with
        | Some data => ret data
        | None => wait_loop fuel' message_id start_time timeout
        end
      else
        raise (TimeoutError ("No response received for message " +:+ message_id))
  end.

Definition wait_for_response (message_id : string) (timeout : Z) : M json :=
  start_time <- time_time ;;
  λ s, wait_loop (S (receives_left s)) message_id start_time timeout s.

(** The default of [timeout] *)
Definition default_timeout : Z := 30.

Definition call_tool (tool : string) (args : json) : M json :=
  msg_id <- send_message "tool_call" (dict [("tool", JStr tool); ("args", args)]) ;;
  response <- wait_for_response msg_id default_timeout ;;
  ty <- subscript response "type" ;;
  if eq_str ty "tool_error" then
    p <- subscript response "payload" ;;
    e <- subscript p "error" ;;
    m <- subscript e "message" ;;
    raise (Exception_ ("Tool error: " +:+ py_str m))
  else
    p <- subscript response "payload" ;;
    subscript p "result".

Definition create_pipeline (spec : json) : M json :=
  msg_id <- send_message "pipeline_create" (dict [
    ("spec", spec);
    ("options", dict [("validateFirst", JBool true); ("autoConnect", JBool true)])
  ]) ;;
  response <- wait_for_response msg_id default_timeout ;;
  ty <- subscript response "type" ;;
  if eq_str ty "tool_error" then
    p <- subscript response "payload" ;;
    e <- subscript p "error" ;;
    m <- subscript e "message" ;;
    raise (Exception_ ("Pipeline creation failed: " +:+ py_str m))
  else
    p <- subscript response "payload" ;;
    subscript p "result".

Definition test_pipeline (pipeline_id : string) (test_data : list json) : M json :=
  msg_id <- send_message "pipeline_test" (dict [
    ("pipelineId", JStr pipeline_id);
    ("testData", JArr test_data);
    ("options", dict [("timeout", JInt 30000);
                      ("captureIntermediateResults", JBool true)])
  ]) ;;
  response <- wait_for_response msg_id default_timeout ;;
  ty <- subscript response "type" ;;
  if eq_str ty "tool_error" then
    p <- subscript response "payload" ;;
    e <- subscript p "error" ;;
    m <- subscript e "message" ;;
    raise (Exception_ ("Pipeline test failed: " +:+ py_str m))
  else
    p <- subscript response "payload" ;;
    subscript p "result".

Definition capture_visualization (format : string) (quality : Q) : M json :=
  call_tool "captureVisualization" (dict [
    ("format", JStr format);
    ("quality", JFloat quality)
  ]).

Definition get_current_project : M json :=
  call_tool "getCurrentProject" (dict []).

(** * The vocabulary of the statements *)

(** ** After [send_message] *)

(** [print(text)] under [if self.debug:] *)
Definition log (flag : bool) (text : string) (w : world) : world :=
  if flag then set_stdout (stdout w ++ [text]) w else w.

(** The message [send_message] builds for the [n]-th send at clock
    reading [t]. *)
Definition message_of (n : Z) (t : Q) (msg_type : string) (payload : json) : json :=
  dict [
    ("id", JStr (make_id n t));
    ("type", JStr msg_type);
    ("timestamp", JInt (int_of_float (t * 1000)));
    ("payload", payload)
  ].

Definition after_send (h : nat) (msg_type : string) (payload : json) (s : state) : state :=
  let n := (message_id (self s) + 1)%Z in
  {| self := set_message_id n (self s);
     env := set_outbox
       (outbox (env s) ++ [(h, Json (message_of n (now (env s)) msg_type payload))])
       (log (debug (self s)) ("Sending: " +:+ msg_type) (env s)) |}.

(** ** While [wait_for_response] waits *)

(** The test of the [while] loop, at clock reading [t]. *)
Definition in_time (start_time : Q) (timeout : Z) (t : Q) : Prop :=
  Qltb (t - start_time) (inject_Z timeout) = true.

(** What the loop passes over while it waits for [ident]: a receive
    timeout of the socket, or a JSON object whose [id] is not [ident]. *)
Definition skipped (ident : string) (a : arrival) : Prop :=
  a = RecvTimeout ∨
  ∃ fields, a = Deliver (Json (JObj fields)) ∧ fields !! "id" ≠ Some (JStr ident).

(** [s'] is [s] after receives on socket [h], once [c], that left [rest]
    inbound and the clock at [t]; only the standard output may differ
    otherwise. *)
Definition received (h : nat) (c : channel) (rest : list (Q * arrival)) (t : Q)
    (s s' : state) : Prop :=
  self s' = self s ∧
  chans (env s') = <[h := set_inbound rest c]> (chans (env s)) ∧
  now (env s') = t ∧
  outbox (env s') = outbox (env s) ∧
  dials (env s') = dials (env s).

(** The clock after the receives of [entries], started at [t0]. *)
Definition clock_after (t0 : Q) (entries : list (Q * arrival)) : Q :=
  default t0 (last (entries.*1)).

(** The readings of the clock at the tests of the loop that precede the
    receives of [entries], the clock being at [t0] at the first test. *)
Definition readings_before (t0 : Q) (entries : list (Q * arrival)) : list Q :=
  take (length entries) (t0 :: entries.*1).

(** A JSON object on the wire. *)
Definition message (fields : gmap string json) : arrival :=
  Deliver (Json (JObj fields)).

(** The three methods that send a request and unwrap its reply. *)
Inductive request : Type :=
  | CallTool (tool : string) (args : json)
  | CreatePipeline (spec : json)
  | TestPipeline (pipeline_id : string) (test_data : list json).

Definition perform (rq : request) : M json :=
  match rq with
  | CallTool tool args => call_tool tool args
  | CreatePipeline spec => create_pipeline spec
  | TestPipeline pipeline_id test_data => test_pipeline pipeline_id test_data
  end.

(** The type tag and the payload of the message a request sends, and the
    words its failure starts with. *)
Definition request_type (rq : request) : string :=
  match rq with
  | CallTool _ _ => "tool_call"
  | CreatePipeline _ => "pipeline_create"
  | TestPipeline _ _ => "pipeline_test"
  end.

Definition request_payload (rq : request) : json :=
  match rq with
  | CallTool tool args => dict [("tool", JStr tool); ("args", args)]
  | CreatePipeline spec =>
      dict [("spec", spec);
            ("options", dict [("validateFirst", JBool true);
                              ("autoConnect", JBool true)])]
  | TestPipeline pipeline_id test_data =>
      dict [("pipelineId", JStr pipeline_id);
            ("testData", JArr test_data);
            ("options", dict [("timeout", JInt 30000);
                              ("captureIntermediateResults", JBool true)])]
  end.

Definition failure_prefix (rq : request) : string :=
  match rq with
  | CallTool _ _ => "Tool error: "
  | CreatePipeline _ => "Pipeline creation failed: "
  | TestPipeline _ _ => "Pipeline test failed: "
  end.

(** The two branches that follow the receipt of the reply. *)
Definition fail_with (prefix : string) (response : json) : M json :=
  p <- subscript response "payload" ;;
  e <- subscript p "error" ;;
  m <- subscript e "message" ;;
  raise (Exception_ (prefix +:+ py_str m)).

Definition take_result (response : json) : M json :=
  p <- subscript response "payload" ;;
  subscript p "result".

(** [needle] occurs in [text]. *)
Definition contains (needle text : string) : Prop :=
  ∃ before after, text = before +:+ needle +:+ after.

(** ** After [connect] *)

(** The handshake [connect] sends at clock reading [t]. *)
Definition handshake (t : Q) : json :=
  dict [
    ("clientId", JStr ("python-client-" +:+ float_str t));
    ("version", JStr "1.0.0");
    ("capabilities", JArr [JStr "pipeline"; JStr "tools"; JStr "state"])
  ].

Definition url_of (c : NoodlesClient) : string :=
  "ws://" +:+ host c +:+ ":" +:+ pretty (port c).

(** The state after a [connect] whose connection is accepted, with
    [script] for the inbound text of the new socket. *)
Definition after_connect (script : list (Q * arrival)) (ds : list dial)
    (s : state) : state :=
  let h' := length (chans (env s)) in
  let s1 :=
    {| self := set_ws (Some h') (self s);
       env := set_dials ds (set_chans
         (chans (env s) ++
            [{| peer := url_of (self s); is_open := true; inbound := script |}])
         (log (debug (self s)) ("Connecting to " +:+ url_of (self s)) (env s))) |} in
  let s2 := after_send h' "connect" (handshake (now (env s))) s1 in
  {| self := self s2; env := log (debug (self s)) "Connected!" (env s2) |}.

(** ** Identifiers and sessions *)

(** A string without the character [-] *)
Fixpoint dashless (s : string) : Prop :=
  match s with
  | "" => True
  | String a s' => a ≠ "-"%char ∧ dashless s'
  end.

(** One call of a method of the client, by the script that owns it. *)
Inductive call : Type :=
  | Connect
  | Disconnect
  | SendMessage (msg_type : string) (payload : json)
  | WaitForResponse (message_id : string) (timeout : Z)
  | Request (rq : request)
  | CaptureVisualization (format : string) (quality : Q)
  | GetCurrentProject.

Definition exec (c : call) : M unit :=
  match c with
  | Connect => connect
  | Disconnect => disconnect
  | SendMessage msg_type payload => send_message msg_type payload ;;; ret tt
  | WaitForResponse message_id timeout =>
      wait_for_response message_id timeout ;;; ret tt
  | Request rq => perform rq ;;; ret tt
  | CaptureVisualization format quality =>
      capture_visualization format quality ;;; ret tt
  | GetCurrentProject => get_current_project ;;; ret tt
  end.

(** A session: calls made one after the other, the caller catching
    what they raise; a call that hangs is the last. *)
Fixpoint session (cs : list call) (s : state) : state :=
  match cs with
  | [] => s
  | c :: cs' =>
      match exec c s with
      | (Hang, s') => s'
      | (_, s') => session cs' s'
      end
  end.

(** The [id] of a frame of the outbox, and the identifiers of all the
    frames transmitted so far, oldest first. *)
Definition frame_id (entry : nat * wire_text) : json :=
  match entry.2 with
  | Json (JObj fields) => default JNull (fields !! "id")
  | _ => JNull
  end.

Definition sent_ids (w : world) : list json := frame_id <$> outbox w.

Definition id_of_stamp (stamp : Z * Q) : json := JStr (make_id stamp.1 stamp.2).

(** The invariant: the identifiers sent so far were made from counters
    that increase strictly and do not exceed [self.message_id]. *)
Definition ids_tracked (s : state) : Prop :=
  ∃ stamps : list (Z * Q),
    sent_ids (env s) = id_of_stamp <$> stamps ∧
    StronglySorted Z.lt stamps.*1 ∧
    Forall (λ stamp, (stamp.1 ≤ message_id (self s))%Z) stamps.

Definition keeps {A} (m : M A) : Prop :=
  ∀ s, ids_tracked s → ids_tracked (m s).2.

End client.

(** * Examples *)

(** A format for the examples: a float is written as the fraction it
    is, and of the values that are not strings only the atoms are
    written out. *)
Definition sample_format : PyFormat := {|
  float_str q := pretty (Qnum q) +:+ "/" +:+ pretty (Z.pos (Qden q));
  py_repr v :=
    match v with
    | JNull => "None"
    | JBool true => "True"
    | JBool false => "False"
    | JInt n => pretty n
    | _ => "<object>"
    end
|}.

(** A socket to ["ws://localhost:8765"] with [script] inbound, and a
    client that has sent nothing and holds this socket, its only one, at
    clock reading [0]; [ds] are the fates of the connections to come. *)
Definition sample_channel (script : list (Q * arrival)) : channel :=
  {| peer := "ws://localhost:8765"; is_open := true; inbound := script |}.

Definition sample_state (script : list (Q * arrival)) (ds : list dial) : state :=
  {| self := {| host := "localhost"; port := 8765; debug := false;
                ws := Some 0; message_id := 0 |};
     env := {| now := 0; chans := [sample_channel script]; dials := ds;
               outbox := []; stdout := [] |} |}.

(** The identifier of the first message of [sample_state]. *)
Definition first_id : string := @make_id sample_format 1 0.

Definition reply_to (ident ty : string) (payload : json) : gmap string json :=
  list_to_map [("id", JStr ident); ("type", JStr ty); ("payload", payload)].

Definition two_decoys : list (Q * gmap string json) :=
  [(1%Q, {["id" := JStr "py-7-0"]}); (2%Q, {["type" := JStr "push"]})].

(** A decoy received 31 seconds after the start of the wait. *)
Definition slow_decoys : list (Q * gmap string json) :=
  [(31%Q, {["id" := JStr "py-7-0"]})].

Definition bare_reply : gmap string json := {["id" := JStr first_id]}.

Definition empty_project : json := dict [("nodes", JArr []); ("edges", JArr [])].

(** What the specification of the protocol calls an error type:
    ["tool_error"] and, by convention, any type with the suffix
    ["_error"]. *)
Definition spec_error_type (t : string) : Prop :=
  t = "tool_error" ∨ ∃ stem, t = stem +:+ "_error".

(** * More vocabulary *)

(** What a method that only receives may change: [s'] is [s] but for
    the clock, the standard output and the socket the client holds, of
    which the inbound text and the [is_open] flag may differ. *)
Definition quiet (s s' : state) : Prop :=
  self s' = self s ∧
  outbox (env s') = outbox (env s) ∧
  dials (env s') = dials (env s) ∧
  length (chans (env s')) = length (chans (env s)) ∧
  ∀ h, ws (self s) ≠ Some h → chans (env s') !! h = chans (env s) !! h.

(** The exception an entry of the inbound text makes [wait_for_response]
    end with, if any: text that is not JSON, a JSON document that is not
    an object, and the loss of the connection do; a JSON object and a
    receive timeout do not. *)
Definition frame_failure (a : arrival) : option exn :=
  match a with
  | Deliver (Garbage _) => Some JSONDecodeError
  | Deliver (Json (JObj _)) => None
  | Deliver (Json _) => Some (AttributeError "get")
  | RecvTimeout => None
  | Dropped => Some WebSocketConnectionClosedException
  end.

(** Two clients that differ at most by their [debug] flag, and two
    states that differ at most by this flag and by what was printed. *)
Definition same_config (c1 c2 : NoodlesClient) : Prop :=
  host c1 = host c2 ∧ port c1 = port c2 ∧ ws c1 = ws c2 ∧
  message_id c1 = message_id c2.

Definition mute (s1 s2 : state) : Prop :=
  same_config (self s1) (self s2) ∧
  now (env s1) = now (env s2) ∧
  chans (env s1) = chans (env s2) ∧
  dials (env s1) = dials (env s2) ∧
  outbox (env s1) = outbox (env s2).

(** [m1] and [m2], run on two such states, end alike and leave two such
    states. *)
Definition agree {A} (m1 m2 : M A) : Prop :=
  ∀ s1 s2, mute s1 s2 →
    (m1 s1).1 = (m2 s2).1 ∧ mute (m1 s1).2 (m2 s2).2.

(** [m], run on [s1] and on [s2], ends alike and leaves two states that
    differ at most by the flag and by what was printed. *)
Definition alike {A} (m : M A) (s1 s2 : state) : Prop :=
  (m s1).1 = (m s2).1 ∧ mute (m s1).2 (m s2).2.

(** Text that every standard output encodes: the characters of ASCII. *)
Fixpoint plain (text : string) : bool :=
  match text with
  | "" => true
  | String (Ascii _ _ _ _ _ _ _ high) rest => negb high && plain rest
  end.

(** An entry of the inbound text of which the client with the flag on
    prints plain text: of a JSON object, the [type] as [print] writes
    it; of the others nothing is printed. *)
Definition legible `{PyFormat} (a : arrival) : bool :=
  match a with
  | Deliver (Json (JObj fields)) => plain (py_str (default JNull (fields !! "type")))
  | _ => true
  end.

(** All that the client of [s] prints of its configuration and of what
    its socket is still to receive is plain. *)
Definition readable `{PyFormat} (s : state) : Prop :=
  plain (host (self s)) = true ∧
  ∀ h c, ws (self s) = Some h → chans (env s) !! h = Some c →
         forallb (λ e, legible e.2) (inbound c) = true.

(** The client holds the open socket [h], once [c], on which [rest] is
    still inbound; the clock is at [t] and the counter at [n]. *)
Definition poised (h : nat) (c : channel) (rest : list (Q * arrival)) (t : Q)
    (n : Z) (s : state) : Prop :=
  ws (self s) = Some h ∧
  chans (env s) !! h = Some (set_inbound rest c) ∧
  is_open c = true ∧
  now (env s) = t ∧
  message_id (self s) = n.

(** Every run of [m] takes a state to one related to it by [R]. *)
Definition stays (R : state → state → Prop) {A} (m : M A) : Prop :=
  ∀ s, R s (m s).2.

(** * The script: [main] *)

(** The text [str] gives the exceptions that the interpreter and the
    libraries raise themselves. *)
Class PyErrorText : Type := {
  exn_text : exn → string
}.

(** [time.sleep(secs)] *)
Definition time_sleep (secs : Q) : M unit :=
  w <- get_env ;; put_env (set_now (now w + secs) w).

(** [len(v)]; the characters of a string are those of the model. *)
Definition py_len (v : json) : M Z :=
  match v with
  | JStr s => ret (Z.of_nat (String.length s))
  | JArr items => ret (Z.of_nat (length items))
  | JObj fields => ret (Z.of_nat (size fields))
  | _ => raise TypeError
  end.

(** [d.get(key, fallback)] *)
Definition dict_get_or (d : json) (key : string) (fallback : json) : M json :=
  match d with
  | JObj fields => ret (default fallback (fields !! key))
  | _ => raise (AttributeError "get")
  end.

(** The truth value of [v] in a condition *)
Definition truthy (v : json) : bool :=
  match v with
  | JNull => false
  | JBool b => b
  | JInt n => negb (n =? 0)%Z
  | JFloat q => negb (Qeq_bool q 0)
  | JStr s => negb (String.eqb s "")
  | JArr items => negb (bool_decide (items = []))
  | JObj fields => negb (bool_decide (size fields = 0))
  end.

(** [try: body finally: final] *)
Definition try_finally {A} (body : M A) (final : M unit) : M A :=
  λ s, match body s with
       | (Hang, s') => (Hang, s')
       | (o, s') =>
           match final s' with
           | (Return _, s'') => (o, s'')
           | (Raise e, s'') => (Raise e, s'')
           | (Hang, s'') => (Hang, s'')
           end
       end.

(** [client = NoodlesClient(...)]: from here on [c] is the client. *)
Definition new_client (c : NoodlesClient) : M unit :=
  λ s, (Return tt, {| self := c; env := env s |}).

(** The newline, and [n] blanks *)
Definition nl : string := String "010"%char "".

Fixpoint blanks (n : nat) : string :=
  match n with
  | O => ""
  | S n' => String " "%char (blanks n')
  end.

Definition pipeline_spec : json :=
  dict [
    ("nodes", JArr [
       dict [
         ("id", JStr "/file-loader");
         ("type", JStr "FileOp");
         ("position", dict [("x", JInt 100); ("y", JInt 100)]);
         ("data", dict [
            ("inputs", dict [
               ("url", JStr "@/nyc-taxis.csv");
               ("format", JStr "csv")
            ])
         ])
       ];
       dict [
         ("id", JStr "/filter");
         ("type", JStr "FilterOp");
         ("position", dict [("x", JInt 100); ("y", JInt 250)]);
         ("data", dict [
            ("inputs", dict [
               ("expression", JStr "d.passenger_count > 2")
            ])
         ])
       ];
       dict [
         ("id", JStr "/map");
         ("type", JStr "MapOp");
         ("position", dict [("x", JInt 100); ("y", JInt 400)]);
         ("data", dict [
            ("inputs", dict [
               ("expression", JStr (
                  "({" +:+ nl +:+
                  blanks 32 +:+ "...d," +:+ nl +:+
                  blanks 32 +:+ "trip_duration_minutes: d.trip_duration / 60," +:+ nl +:+
                  blanks 32 +:+ "speed_mph: (d.trip_distance / d.trip_duration) * 3600" +:+ nl +:+
                  blanks 28 +:+ "})"))
            ])
         ])
       ];
       dict [
         ("id", JStr "/scatterplot");
         ("type", JStr "ScatterplotLayerOp");
         ("position", dict [("x", JInt 100); ("y", JInt 550)]);
         ("data", dict [
            ("inputs", dict [
               ("getPosition", JStr "d => [d.pickup_longitude, d.pickup_latitude]");
               ("getRadius", JStr "d => Math.min(d.trip_duration_minutes * 10, 500)");
               ("getFillColor", JStr "d => d.passenger_count > 3 ? [255, 0, 0] : [0, 0, 255]");
               ("opacity", JFloat (5 # 10))
            ])
         ])
       ]
    ]);
    ("edges", JArr [
       dict [
         ("source", JStr "/file-loader");
         ("target", JStr "/filter");
         ("sourceHandle", JStr "out.data");
         ("targetHandle", JStr "par.data")
       ];
       dict [
         ("source", JStr "/filter");
         ("target", JStr "/map");
         ("sourceHandle", JStr "out.result");
         ("targetHandle", JStr "par.data")
       ];
       dict [
         ("source", JStr "/map");
         ("target", JStr "/scatterplot");
         ("sourceHandle", JStr "out.result");
         ("targetHandle", JStr "par.data")
       ]
    ])
  ].

Definition test_data : list json := [
  dict [
    ("pickup_longitude", JFloat (-7398 # 100));
    ("pickup_latitude", JFloat (4075 # 100));
    ("passenger_count", JInt 3);
    ("trip_duration", JInt 600);
    ("trip_distance", JFloat (25 # 10))
  ];
  dict [
    ("pickup_longitude", JFloat (-7397 # 100));
    ("pickup_latitude", JFloat (4076 # 100));
    ("passenger_count", JInt 4);
    ("trip_duration", JInt 900);
    ("trip_distance", JFloat (32 # 10))
  ]
].

(** The [type] of a frame of the outbox *)
Definition frame_type (entry : nat * wire_text) : json :=
  match entry.2 with
  | Json (JObj fields) => default JNull (fields !! "type")
  | _ => JNull
  end.

(** The types of the messages [main] sends, in order *)
Definition main_types : list json :=
  [JStr "connect"; JStr "pipeline_create"; JStr "tool_call"; JStr "tool_call";
   JStr "pipeline_test"].

(** A run of [m] transmits messages whose types are the first of
    [types], and all of them when [m] returns. *)
Definition emits (types : list json) {A} (m : M A) : Prop :=
  ∀ s, ∃ sent,
    outbox (env (m s).2) = outbox (env s) ++ sent ∧
    frame_type <$> sent `prefix_of` types ∧
    ((∃ a, (m s).1 = Return a) → frame_type <$> sent = types).

(** What a method other than [connect] and [disconnect] may change:
    the client holds the same socket, no socket was opened, and the
    sockets it does not hold are as they were. *)
Definition steady (s s' : state) : Prop :=
  ws (self s') = ws (self s) ∧
  length (chans (env s')) = length (chans (env s)) ∧
  ∀ h, ws (self s) ≠ Some h → chans (env s') !! h = chans (env s) !! h.

(** The client holds no socket, or the one socket opened since there
    were the sockets [old]; these are as they were. *)
Definition owns (old : list channel) (s : state) : Prop :=
  take (length old) (chans (env s)) = old ∧
  ((ws (self s) = None ∧ length (chans (env s)) = length old) ∨
   (ws (self s) = Some (length old) ∧ length (chans (env s)) = S (length old))).

Section script.
Context `{PyFormat} `{PyErrorText}.

(** [str(e)] *)
Definition str_exn (e : exn) : string :=
  match e with
  | Exception_ msg => msg
  | TimeoutError msg => msg
  | _ => exn_text e
  end.

(** The pattern of the three requests: send, await, unwrap. *)
Definition request_with (msg_type : string) (payload : json) (prefix : string)
    : M json :=
  msg_id <- send_message msg_type payload ;;
  response <- wait_for_response msg_id default_timeout ;;
  ty <- subscript response "type" ;;
  if eq_str ty "tool_error" then
    p <- subscript response "payload" ;;
    e <- subscript p "error" ;;
    m <- subscript e "message" ;;
    raise (Exception_ (prefix +:+ py_str m))
  else
    p <- subscript response "payload" ;;
    subscript p "result".

(** [test_pipeline] called with a [pipeline_id] that need not be a
    string: the annotation [str] is not enforced, and [main] passes what
    the server sent. *)
Definition test_pipeline_with (pipeline_id : json) (test_data : list json) : M json :=
  request_with "pipeline_test" (dict [
    ("pipelineId", pipeline_id);
    ("testData", JArr test_data);
    ("options", dict [("timeout", JInt 30000);
                      ("captureIntermediateResults", JBool true)])
  ]) "Pipeline test failed: ".

(** The [try] block of [main] *)
Definition main_body : M unit :=
  connect ;;;
  print (nl +:+ "Creating data pipeline...") ;;;
  pipeline <- create_pipeline pipeline_spec ;;
  pid <- subscript pipeline "pipelineId" ;;
  print ("Pipeline created: " +:+ py_str pid) ;;;
  time_sleep 2 ;;;
  print (nl +:+ "Capturing visualization...") ;;;
  screenshot <- capture_visualization "png" (9 # 10) ;;
  data <- dict_get_or screenshot "data" (JStr "") ;;
  size_of_data <- py_len data ;;
  print ("Screenshot captured: " +:+ pretty size_of_data +:+ " bytes") ;;;
  print (nl +:+ "Getting project state...") ;;;
  project <- get_current_project ;;
  nodes <- subscript project "nodes" ;;
  n_nodes <- py_len nodes ;;
  edges <- subscript project "edges" ;;
  n_edges <- py_len edges ;;
  print ("Project has " +:+ pretty n_nodes +:+ " nodes and " +:+
         pretty n_edges +:+ " edges") ;;;
  print (nl +:+ "Testing pipeline with sample data...") ;;;
  pid <- subscript pipeline "pipelineId" ;;
  test_result <- test_pipeline_with pid test_data ;;
  success <- subscript test_result "success" ;;
  print ("Test result: " +:+ (if truthy success then "Success" else "Failed")) ;;;
  print (nl +:+ "Pipeline creation complete!").

Definition main : M unit :=
  new_client (__init__ "localhost" 8765 true) ;;;
  try_finally
    (try_except main_body
       (λ e, Some (print ("Error: " +:+ str_exn e))))
    (print (nl +:+ "Disconnecting...") ;;; disconnect).

End script.

(** The texts of the exceptions, for the examples: the name of the
    exception, with the key or the attribute it is about. *)
Definition sample_errors : PyErrorText := {|
  exn_text e :=
    match e with
    | Exception_ msg => msg
    | TimeoutError msg => msg
    | KeyError key => "KeyError " +:+ key
    | TypeError => "TypeError"
    | AttributeError attr => "AttributeError " +:+ attr
    | JSONDecodeError => "JSONDecodeError"
    | WebSocketTimeoutException => "WebSocketTimeoutException"
    | WebSocketConnectionClosedException => "WebSocketConnectionClosedException"
    | ConnectionRefusedError => "ConnectionRefusedError"
    end
|}.

(** A client just created, in a world without sockets where no
    connection can be made. *)
Definition fresh_state : state :=
  {| self := __init__ "localhost" 8765 false;
     env := {| now := 0; chans := []; dials := []; outbox := []; stdout := [] |} |}.

(** The same, in a world where the next connection is accepted by a
    server that will stay silent. *)
Definition fresh_state_dialing : state :=
  {| self := __init__ "localhost" 8765 false;
     env := {| now := 0; chans := []; dials := [Accepted []]; outbox := [];
               stdout := [] |} |}.

(** Three replies, to ["b"], to ["a"] and to ["c"], in this order. *)
Definition two_replies : list (Q * arrival) :=
  [(1%Q, message {["id" := JStr "b"]}); (2%Q, message {["id" := JStr "a"]});
   (3%Q, message {["id" := JStr "c"]})].

(** The replies of a server to the four requests of [main], when the
    connection is made at clock reading [0]: a pipeline, a screenshot of
    four characters, a project of one node and a successful test. *)
Definition four_replies : list (Q * arrival) :=
  [(1%Q, message (reply_to (@make_id sample_format 2 0) "pipeline_created"
      (dict [("result", dict [("pipelineId", JStr "p1")])])));
   (4%Q, message (reply_to (@make_id sample_format 3 (1 + 2)) "tool_result"
      (dict [("result", dict [("data", JStr "AAAA")])])));
   (5%Q, message (reply_to (@make_id sample_format 4 4) "tool_result"
      (dict [("result", dict [("nodes", JArr [JStr "n1"]); ("edges", JArr [])])])));
   (6%Q, message (reply_to (@make_id sample_format 5 5) "pipeline_tested"
      (dict [("result", dict [("success", JBool true)])])))].

(** A server that accepts the connection and answers the first request
    with text that is not JSON. *)
Definition fresh_state_garbled : state :=
  {| self := __init__ "localhost" 8765 false;
     env := {| now := 0; chans := [];
               dials := [Accepted [(1%Q, Deliver (Garbage "oops"))]];
               outbox := []; stdout := [] |} |}.

Definition fresh_state_served : state :=
  {| self := __init__ "localhost" 8765 false;
     env := {| now := 0; chans := []; dials := [Accepted four_replies];
               outbox := []; stdout := [] |} |}.

(** * Properties *)

Section properties.
Context `{PyFormat}.

(** Evaluation of a statement on a state, leaving the operations on
    maps, lists and strings alone. *)
Ltac run :=
  repeat progress (
    cbv beta iota zeta delta
      [bind ret raise get_self assign_ws assign_message_id get_env put_env
       time_time print
       on_ws try_except json_dumps json_loads];
    cbn [self env host port debug ws message_id now chans dials outbox
         stdout peer is_open inbound set_ws set_message_id set_now set_chans
         set_dials set_outbox set_stdout set_inbound set_is_open fst snd]).

Lemma bind_Return {A B} (m : M A) (k : A → M B) s a s' :
  m s = (Return a, s') → bind m k s = k a s'.
Proof. unfold bind. by intros ->. Qed.

(** ** [disconnect] *)

Lemma disconnect_returns s : (disconnect s).1 = Return tt.
Proof.
  destruct s as [[ho po de [h|] mi] w]; [|done].
  unfold disconnect, ws_close. run. by destruct (chans w !! h).
Qed.

Lemma disconnect_forgets s : ws (self (disconnect s).2) = None.
Proof.
  destruct s as [[ho po de [h|] mi] w]; [|done].
  unfold disconnect, ws_close. run. by destruct (chans w !! h); run.
Qed.

(** C6.  [disconnect] is idempotent: whatever the state of the client
    and of the world, a first call returns, and a second call right
    after it returns too, raising nothing, and leaves the state the first
    call produced as it is. *)
Theorem disconnect_idempotent s :
  (disconnect s).1 = Return tt ∧
  disconnect (disconnect s).2 = (Return tt, (disconnect s).2).
Proof.
  split; [apply disconnect_returns|].
  pose proof (disconnect_forgets s) as Hnone.
  destruct (disconnect s).2 as [[ho po de w mi] e].
  cbn [self ws] in Hnone. by subst w.
Qed.

(** ** [send_message] *)

Lemma send_message_connected s h c msg_type payload :
  ws (self s) = Some h → chans (env s) !! h = Some c → is_open c = true →
  send_message msg_type payload s =
    (Return (make_id (message_id (self s) + 1) (now (env s))),
     after_send h msg_type payload s).
Proof.
  intros Hws Hch Hop. destruct s as [[ho po de w mi] [n cs ds ob so]].
  cbn [self env ws chans] in Hws, Hch. subst w.
  unfold send_message, after_send, message_of, ws_send. run.
  destruct de; run; rewrite Hch; run; by rewrite Hop.
Qed.

(** C8.  On a client that holds an open socket, [send_message] hands
    exactly one frame to that socket: the serialized message with the
    four fields [id] (a string), [type] (the given tag), [timestamp] (an
    integer, the clock in milliseconds) and [payload] (the given
    object).  It returns the [id] of that message at once: no [recv] is
    made, so nothing inbound is consumed and the clock has not moved. *)
Theorem send_message_transmits s h c msg_type payload :
  ws (self s) = Some h → chans (env s) !! h = Some c → is_open c = true →
  ∃ ident ms fields s',
    send_message msg_type payload s = (Return ident, s') ∧
    outbox (env s') = outbox (env s) ++ [(h, json_dumps (JObj fields))] ∧
    dom fields = {["id"; "type"; "timestamp"; "payload"]} ∧
    fields !! "id" = Some (JStr ident) ∧
    fields !! "type" = Some (JStr msg_type) ∧
    fields !! "timestamp" = Some (JInt ms) ∧
    ms = int_of_float (now (env s) * 1000) ∧
    fields !! "payload" = Some payload ∧
    chans (env s') = chans (env s) ∧
    now (env s') = now (env s).
Proof.
  intros Hws Hch Hop.
  eexists _, _, _, _. split; [by eapply send_message_connected|].
  unfold after_send, log. destruct (debug (self s)); run.
  all: repeat split; try done; unfold dom; set_solver.
Qed.

(** ** [wait_for_response] *)

Lemma eq_str_true v s : eq_str v s = true ↔ v = JStr s.
Proof.
  destruct v; cbn; try (split; [done|congruence]).
  rewrite String.eqb_eq. split; congruence.
Qed.

Lemma eq_str_mismatch (fields : gmap string json) ident :
  fields !! "id" ≠ Some (JStr ident) →
  eq_str (default JNull (fields !! "id")) ident = false.
Proof.
  intros Hne. destruct (eq_str _ ident) eqn:He; [|done].
  apply eq_str_true in He. destruct (fields !! "id"); cbn in He; congruence.
Qed.

Lemma eq_str_lookup (fields : gmap string json) key s :
  eq_str (default JNull (fields !! key)) s = true → fields !! key = Some (JStr s).
Proof.
  rewrite eq_str_true. destruct (fields !! key) as [v|]; cbn; [by intros ->|done].
Qed.

Lemma wait_loop_expired fuel ident start_time timeout s :
  ¬ in_time start_time timeout (now (env s)) →
  wait_loop (S fuel) ident start_time timeout s =
    (Raise (TimeoutError ("No response received for message " +:+ ident)), s).
Proof.
  unfold in_time. intros Hout. cbn [wait_loop]. run.
  by destruct (Qltb _ _).
Qed.

Lemma wait_loop_skip fuel ident start_time timeout s h c t a rest :
  ws (self s) = Some h → chans (env s) !! h = Some c → is_open c = true →
  inbound c = (t, a) :: rest →
  in_time start_time timeout (now (env s)) → skipped ident a →
  ∃ s', wait_loop (S fuel) ident start_time timeout s =
          wait_loop fuel ident start_time timeout s' ∧
        received h c rest t s s'.
Proof.
  intros Hws Hch Hop Hin Htime Hskip.
  destruct s as [[ho po de w mi] [n cs ds ob so]].
  cbn [self env ws chans now] in Hws, Hch, Htime. subst w.
  cbn [wait_loop]. unfold ws_recv. run. rewrite Htime. run.
  rewrite Hch, Hop, Hin.
  destruct Hskip as [->|(fields & -> & Hne)]; run.
  { by eexists. }
  destruct de; unfold dict_get; run; rewrite (eq_str_mismatch _ _ Hne);
    by eexists.
Qed.

Lemma wait_loop_match fuel ident start_time timeout s h c t fields rest :
  ws (self s) = Some h → chans (env s) !! h = Some c → is_open c = true →
  inbound c = (t, Deliver (Json (JObj fields))) :: rest →
  in_time start_time timeout (now (env s)) →
  fields !! "id" = Some (JStr ident) →
  ∃ s', wait_loop (S fuel) ident start_time timeout s = (Return (JObj fields), s') ∧
        received h c rest t s s'.
Proof.
  intros Hws Hch Hop Hin Htime Hid.
  destruct s as [[ho po de w mi] [n cs ds ob so]].
  cbn [self env ws chans now] in Hws, Hch, Htime. subst w.
  assert (eq_str (default JNull (fields !! "id")) ident = true) as Heq.
  { rewrite Hid. by apply eq_str_true. }
  cbn [wait_loop]. unfold ws_recv. run. rewrite Htime. run.
  rewrite Hch, Hop, Hin. run.
  destruct de; unfold dict_get; run; rewrite Heq; by eexists.
Qed.

Lemma wait_loop_skips ident start_time timeout h early :
  ∀ fuel s c rest,
  ws (self s) = Some h → chans (env s) !! h = Some c → is_open c = true →
  inbound c = early ++ rest →
  Forall (λ e, skipped ident e.2) early →
  Forall (in_time start_time timeout) (readings_before (now (env s)) early) →
  ∃ s', wait_loop (length early + fuel) ident start_time timeout s =
          wait_loop fuel ident start_time timeout s' ∧
        received h c rest (clock_after (now (env s)) early) s s'.
Proof.
  induction early as [|[t a] early IH]; intros fuel s c rest Hws Hch Hop Hin Hsk Htm.
  { exists s. split; [done|]. repeat split.
    cbn in Hin. rewrite <- Hin. destruct c. cbn. by rewrite list_insert_id. }
  apply Forall_cons in Hsk as [Ha Hsk].
  unfold readings_before in Htm. cbn in Htm. apply Forall_cons in Htm as [Ht Htm].
  destruct (wait_loop_skip (length early + fuel) ident start_time timeout
    s h c t a (early ++ rest)) as (s1 & Hrun & Hself & Hchans & Hnow & Hout & Hdial);
    try done.
  destruct (IH fuel s1 (set_inbound (early ++ rest) c) rest)
    as (s2 & Hrun2 & Hself2 & Hchans2 & Hnow2 & Hout2 & Hdial2).
  - by rewrite Hself.
  - rewrite Hchans. apply list_lookup_insert_eq. by eapply lookup_lt_Some.
  - done.
  - done.
  - done.
  - by rewrite Hnow.
  - exists s2. split; [cbn [length Nat.add]; by rewrite Hrun, Hrun2|].
    repeat split.
    + by rewrite Hself2.
    + rewrite Hchans2, Hchans. cbn. by rewrite list_insert_insert_eq.
    + rewrite Hnow2, Hnow. unfold clock_after. cbn.
      rewrite last_cons. by destruct (last _).
    + by rewrite Hout2.
    + by rewrite Hdial2.
Qed.

Lemma wait_for_response_loop ident timeout s :
  wait_for_response ident timeout s =
    wait_loop (S (receives_left s)) ident (now (env s)) timeout s.
Proof. unfold wait_for_response. by run. Qed.

Lemma receives_left_connected s h c :
  ws (self s) = Some h → chans (env s) !! h = Some c →
  receives_left s = length (inbound c).
Proof. unfold receives_left. by intros -> ->. Qed.

(** A message that [wait_loop] returns is a JSON object whose [id] is
    the awaited string. *)
Lemma wait_loop_returns_match ident start_time timeout fuel :
  ∀ s data s',
  wait_loop fuel ident start_time timeout s = (Return data, s') →
  ∃ fields, data = JObj fields ∧ fields !! "id" = Some (JStr ident).
Proof.
  induction fuel as [|fuel IH]; intros s data s'; [done|].
  cbn [wait_loop]. unfold ws_recv, dict_get. run.
  repeat (case_match; run; try done); subst; simplify_eq;
    try apply IH.
  all: intros [= <- <-]; eexists; split; [done|]; by apply eq_str_lookup.
Qed.

Lemma make_id_nonempty n t : make_id n t ≠ "".
Proof. done. Qed.

(** Whenever [send_message] returns, it returns the identifier made of
    the incremented counter and of the clock. *)
Lemma send_message_returns_id msg_type payload s ident s' :
  send_message msg_type payload s = (Return ident, s') →
  ident = make_id (message_id (self s) + 1) (now (env s)).
Proof.
  unfold send_message, ws_send. run.
  repeat (case_match; run; try done); congruence.
Qed.


(** X23.  A client holds an open socket.  If the test of the
    loop passes before each receive of [early], every one of these
    receives ends with a receive timeout of the socket or with a JSON
    object whose [id] is not [ident], and the test fails after the last
    of them (at once when [early] is empty), then [wait_for_response]
    raises [TimeoutError] and returns no message.  What the peer delivers
    after [early] is still inbound. *)
Theorem wait_for_response_times_out s h c ident timeout early rest :
  ws (self s) = Some h → chans (env s) !! h = Some c → is_open c = true →
  inbound c = early ++ rest →
  Forall (λ e, skipped ident e.2) early →
  Forall (in_time (now (env s)) timeout) (readings_before (now (env s)) early) →
  ¬ in_time (now (env s)) timeout (clock_after (now (env s)) early) →
  ∃ s', wait_for_response ident timeout s =
          (Raise (TimeoutError ("No response received for message " +:+ ident)), s') ∧
        self s' = self s ∧
        chans (env s') = <[h := set_inbound rest c]> (chans (env s)) ∧
        outbox (env s') = outbox (env s).
Proof.
  intros Hws Hch Hop Hin Hsk Htm Hout.
  destruct (wait_loop_skips ident (now (env s)) timeout h early
    (S (length rest)) s c rest)
    as (s1 & Hrun & Hself & Hchans & Hnow & Hob & Hdial); try done.
  exists s1. split; [|done].
  rewrite wait_for_response_loop, (receives_left_connected s h c) by done.
  rewrite Hin, length_app.
  replace (S (length early + length rest))
    with (length early + S (length rest)) by lia.
  rewrite Hrun. apply wait_loop_expired. by rewrite Hnow.
Qed.

(** C10.  Whatever string [ident] is awaited (an identifier that
    [send_message] returned is one, and is never empty):
    a message that [wait_for_response] returns is a JSON object that has
    an [id] field, equal to [ident]; and a JSON object without an [id]
    field, received in time on the client's open socket, is passed over
    without error: the loop goes on to its next turn, the message gone
    from the socket and kept nowhere. *)
Theorem wait_for_response_needs_id s ident timeout :
  (∀ msg_type payload s0 s1,
     send_message msg_type payload s0 = (Return ident, s1) → ident ≠ "") ∧
  (∀ data s',
     wait_for_response ident timeout s = (Return data, s') →
     ∃ fields, data = JObj fields ∧ fields !! "id" = Some (JStr ident)) ∧
  (∀ h c t fields rest,
     ws (self s) = Some h → chans (env s) !! h = Some c → is_open c = true →
     inbound c = (t, message fields) :: rest →
     fields !! "id" = None →
     in_time (now (env s)) timeout (now (env s)) →
     ∃ s', wait_for_response ident timeout s =
             wait_loop (S (length rest)) ident (now (env s)) timeout s' ∧
           received h c rest t s s').
Proof.
  split; [|split].
  - intros msg_type payload s0 s1 Hsend.
    rewrite (send_message_returns_id _ _ _ _ _ Hsend). apply make_id_nonempty.
  - intros data s'. rewrite wait_for_response_loop.
    apply wait_loop_returns_match.
  - intros h c t fields rest Hws Hch Hop Hin Hid Htm.
    rewrite wait_for_response_loop, (receives_left_connected s h c) by done.
    rewrite Hin. cbn [length].
    eapply wait_loop_skip; try done.
    right. exists fields. split; [done|]. by rewrite Hid.
Qed.

(** ** Requests: [call_tool], [create_pipeline], [test_pipeline] *)

Lemma in_time_start timeout t : (0 < timeout)%Z → in_time t timeout t.
Proof.
  intros Hpos. unfold in_time, Qltb. apply negb_true_iff.
  destruct (Qle_bool _ _) eqn:Hle; [|done].
  apply Qle_bool_iff in Hle.
  assert (inject_Z 0 < inject_Z timeout)%Q as Hq by (by rewrite <- Zlt_Qlt).
  change (inject_Z 0) with 0%Q in Hq.
  lra.
Qed.

Lemma perform_unfold rq :
  perform rq =
    (msg_id <- send_message (request_type rq) (request_payload rq) ;;
     response <- wait_for_response msg_id default_timeout ;;
     ty <- subscript response "type" ;;
     if eq_str ty "tool_error" then fail_with (failure_prefix rq) response
     else take_result response).
Proof. by destruct rq. Qed.

Lemma perform_replied rq s ident s1 fields ty s2 :
  send_message (request_type rq) (request_payload rq) s = (Return ident, s1) →
  wait_for_response ident default_timeout s1 = (Return (JObj fields), s2) →
  fields !! "type" = Some ty →
  perform rq s =
    (if eq_str ty "tool_error" then fail_with (failure_prefix rq) (JObj fields)
     else take_result (JObj fields)) s2.
Proof.
  intros Hsend Hwait Hty. rewrite perform_unfold.
  rewrite (bind_Return _ _ _ _ _ Hsend), (bind_Return _ _ _ _ _ Hwait).
  unfold subscript at 1. rewrite Hty. run. reflexivity.
Qed.

Lemma fail_with_raises prefix response s : ∃ e, fail_with prefix response s = (Raise e, s).
Proof.
  unfold fail_with, subscript. run.
  repeat (case_match; run; simplify_eq; try done); by eexists.
Qed.

Lemma take_result_no_exception response s msg :
  (take_result response s).1 ≠ Raise (Exception_ msg).
Proof.
  unfold take_result, subscript. run.
  repeat (case_match; run; simplify_eq; try done).
Qed.

(** C2 (amended).  For [call_tool], [create_pipeline] and
    [test_pipeline] alike, once the matching reply is received, it is
    taken for an error exactly when its type is ["tool_error"]: then the
    method raises and returns nothing; with any other type, a type that
    ends in ["_error"] too, the method goes on to return the [result] of
    the payload and raises no [Exception] of its own. *)
Theorem error_reply_recognition rq s ident s1 fields t s2 :
  send_message (request_type rq) (request_payload rq) s = (Return ident, s1) →
  wait_for_response ident default_timeout s1 = (Return (JObj fields), s2) →
  fields !! "type" = Some (JStr t) →
  (t = "tool_error" → ∃ e, perform rq s = (Raise e, s2)) ∧
  (t ≠ "tool_error" →
     perform rq s = take_result (JObj fields) s2 ∧
     ∀ msg, (perform rq s).1 ≠ Raise (Exception_ msg)).
Proof.
  intros Hsend Hwait Hty.
  rewrite (perform_replied _ _ _ _ _ _ _ Hsend Hwait Hty).
  split.
  - intros ->. apply fail_with_raises.
  - intros Hne. destruct (eq_str (JStr t) "tool_error") eqn:Heq.
    { apply eq_str_true in Heq. congruence. }
    split; [done|]. intros msg. apply take_result_no_exception.
Qed.

Lemma append_empty_r s : s +:+ "" = s.
Proof.
  induction s as [|a s IH]; [done|].
  change (String a s +:+ "") with (String a (s +:+ "")). by rewrite IH.
Qed.

(** C3 (amended).  When the matching reply of a tool call has the type
    ["tool_error"] and a payload whose [error] holds a [message] that is
    the string [X], [call_tool] raises an exception whose message,
    ["Tool error: "] followed by [X], contains [X], and returns no
    result. *)
Theorem call_tool_unwraps_error tool args s ident s1 fields payload error X s2 :
  send_message "tool_call" (dict [("tool", JStr tool); ("args", args)]) s
    = (Return ident, s1) →
  wait_for_response ident default_timeout s1 = (Return (JObj fields), s2) →
  fields !! "type" = Some (JStr "tool_error") →
  fields !! "payload" = Some (JObj payload) →
  payload !! "error" = Some (JObj error) →
  error !! "message" = Some (JStr X) →
  ∃ msg, call_tool tool args s = (Raise (Exception_ msg), s2) ∧
         msg = "Tool error: " +:+ X ∧ contains X msg.
Proof.
  intros Hsend Hwait Hty Hpay Herr Hmsg.
  exists ("Tool error: " +:+ X). split; [|split; [done|]].
  - change (call_tool tool args) with (perform (CallTool tool args)).
    rewrite (perform_replied (CallTool tool args) _ _ _ _ _ _ Hsend Hwait Hty).
    unfold fail_with, subscript. cbn [eq_str String.eqb]. run.
    rewrite Hpay. run. rewrite Herr. run. by rewrite Hmsg.
  - exists "Tool error: ", "". by rewrite append_empty_r.
Qed.

Lemma log_chans flag text w : chans (log flag text w) = chans w.
Proof. by destruct flag. Qed.

Lemma receives_left_after s s' h c t a rest :
  ws (self s) = Some h → chans (env s) !! h = Some c →
  inbound c = (t, a) :: rest →
  self s' = self s →
  chans (env s') = <[h := set_inbound rest c]> (chans (env s)) →
  receives_left s' = length rest ∧ receives_left s = S (length rest).
Proof.
  intros Hws Hch Hin Hself Hchans. unfold receives_left.
  rewrite Hself, Hchans, Hws, Hch, Hin.
  by rewrite list_lookup_insert_eq by (by eapply lookup_lt_Some).
Qed.

(** The fuel [wait_for_response] gives the loop is never used up: any
    two amounts above the number of receives left give the same run. *)
Lemma wait_loop_fuel ident start_time timeout fuel1 :
  ∀ fuel2 s,
  receives_left s < fuel1 → receives_left s < fuel2 →
  wait_loop fuel1 ident start_time timeout s =
    wait_loop fuel2 ident start_time timeout s.
Proof.
  induction fuel1 as [|fuel1 IH]; intros [|fuel2] s H1 H2; try lia.
  cbn [wait_loop]. unfold ws_recv, dict_get. run.
  repeat (case_match; run; simplify_eq; try done).
  all: run.
  all: match goal with
       | Hws : ws (self ?s) = Some ?h, Hch : chans (env ?s) !! ?h = Some ?c,
         Hin : inbound ?c = _ :: _
         |- wait_loop _ _ _ _ ?s' = _ =>
           destruct (receives_left_after s s' _ _ _ _ _ Hws Hch Hin eq_refl eq_refl)
             as [Hl1 Hl2]
       end.
  all: apply IH; lia.
Qed.

(** The awaited reply is the next thing the socket delivers. *)
Lemma wait_for_response_next s h c ident timeout t reply rest :
  ws (self s) = Some h → chans (env s) !! h = Some c → is_open c = true →
  inbound c = (t, message reply) :: rest →
  reply !! "id" = Some (JStr ident) →
  (0 < timeout)%Z →
  ∃ s', wait_for_response ident timeout s = (Return (JObj reply), s') ∧
        received h c rest t s s'.
Proof.
  intros Hws Hch Hop Hin Hid Hpos. rewrite wait_for_response_loop.
  eapply wait_loop_match; try done. by apply in_time_start.
Qed.

(** A tool call answered at once by a reply that is not an error. *)
Lemma call_tool_returns_result tool args s h c t reply ty payload result rest :
  ws (self s) = Some h → chans (env s) !! h = Some c → is_open c = true →
  inbound c = (t, message reply) :: rest →
  reply !! "id" = Some (JStr (make_id (message_id (self s) + 1) (now (env s)))) →
  reply !! "type" = Some (JStr ty) → ty ≠ "tool_error" →
  reply !! "payload" = Some (JObj payload) →
  payload !! "result" = Some result →
  ∃ s', call_tool tool args s = (Return result, s') ∧
        received h c rest t
          (after_send h "tool_call" (dict [("tool", JStr tool); ("args", args)]) s) s'.
Proof.
  intros Hws Hch Hop Hin Hid Hty Hne Hpay Hres.
  pose proof (send_message_connected s h c "tool_call"
    (dict [("tool", JStr tool); ("args", args)]) Hws Hch Hop) as Hsend.
  destruct (wait_for_response_next
    (after_send h "tool_call" (dict [("tool", JStr tool); ("args", args)]) s)
    h c (make_id (message_id (self s) + 1) (now (env s))) default_timeout
    t reply rest) as (s2 & Hwait & Hrec); try done.
  { unfold after_send. run. by rewrite log_chans. }
  exists s2. split; [|done].
  change (call_tool tool args) with (perform (CallTool tool args)).
  rewrite (perform_replied (CallTool tool args) _ _ _ _ _ _ Hsend Hwait Hty).
  destruct (eq_str (JStr ty) "tool_error") eqn:Heq.
  { apply eq_str_true in Heq. congruence. }
  unfold take_result, subscript. run. rewrite Hpay. run. by rewrite Hres.
Qed.

(** C5.  The client holds an open socket.  [get_current_project] sends
    a ["tool_call"] message whose payload is
    [{tool: "getCurrentProject", args: {}}]; when the server's reply has
    the [id] of that message, the type ["tool_result"] and the payload
    [{result: {nodes: [], edges: []}}], [get_current_project] returns
    [{nodes: [], edges: []}], the [result] of the reply's payload. *)
Theorem get_current_project_scenario s h c t reply rest :
  ws (self s) = Some h → chans (env s) !! h = Some c → is_open c = true →
  inbound c = (t, message reply) :: rest →
  reply !! "id" = Some (JStr (make_id (message_id (self s) + 1) (now (env s)))) →
  reply !! "type" = Some (JStr "tool_result") →
  reply !! "payload" =
    Some (dict [("result", dict [("nodes", JArr []); ("edges", JArr [])])]) →
  ∃ s', get_current_project s =
          (Return (dict [("nodes", JArr []); ("edges", JArr [])]), s') ∧
        outbox (env s') = outbox (env s) ++
          [(h, json_dumps (message_of (message_id (self s) + 1) (now (env s))
                 "tool_call"
                 (dict [("tool", JStr "getCurrentProject"); ("args", dict [])])))].
Proof.
  intros Hws Hch Hop Hin Hid Hty Hpay.
  destruct (call_tool_returns_result "getCurrentProject" (dict []) s h c t reply
    "tool_result" _ (dict [("nodes", JArr []); ("edges", JArr [])]) rest
    Hws Hch Hop Hin Hid Hty ltac:(done) Hpay ltac:(done))
    as (s' & Hrun & Hself & Hchans & Hnow & Hout & Hdial).
  exists s'. split; [done|].
  rewrite Hout. unfold after_send. run. reflexivity.
Qed.

(** ** [connect] *)

Lemma lookup_new_socket (cs : list channel) c : (cs ++ [c]) !! length cs = Some c.
Proof. by apply list_lookup_middle. Qed.

Lemma connect_accepted s script ds :
  dials (env s) = Accepted script :: ds →
  connect s = (Return tt, after_connect script ds s).
Proof.
  intros Hdial. destruct s as [[ho po de w mi] [n cs ds' ob so]].
  cbn [env dials] in Hdial. subst ds'.
  unfold connect, create_connection, after_connect, url_of, handshake.
  destruct de; unfold log; run.
  all: erewrite send_message_connected;
    [ | reflexivity | run; apply lookup_new_socket | reflexivity ]; try done.
Qed.

(** C9.  A client that holds an open socket [h] calls [connect] again,
    and the connection is accepted.  The client then holds a new socket
    [h'], on which the handshake has been sent; the socket [h] has not
    been closed, it is as it was, but the client object no longer refers
    to it; and the [disconnect] that follows closes [h'] only: [h] stays
    open. *)
Theorem connect_again_leaks_socket s h c script ds :
  ws (self s) = Some h → chans (env s) !! h = Some c → is_open c = true →
  dials (env s) = Accepted script :: ds →
  ∃ h' s' fields s'',
    connect s = (Return tt, s') ∧
    ws (self s') = Some h' ∧ h' ≠ h ∧
    chans (env s') !! h = Some c ∧
    (is_open <$> chans (env s') !! h') = Some true ∧
    outbox (env s') = outbox (env s) ++ [(h', json_dumps (JObj fields))] ∧
    fields !! "type" = Some (JStr "connect") ∧
    disconnect s' = (Return tt, s'') ∧
    ws (self s'') = None ∧
    chans (env s'') !! h = Some c ∧
    (is_open <$> chans (env s'') !! h') = Some false.
Proof.
  intros Hws Hch Hop Hdial.
  pose proof (lookup_lt_Some _ _ _ Hch) as Hlt.
  destruct s as [[ho po de w mi] [n cs ds' ob so]].
  cbn [self env ws chans dials] in *. subst w ds'.
  destruct de.
  all: eexists (length cs), _, _, _; split; [by apply connect_accepted|].
  all: unfold after_connect, after_send, disconnect, ws_close, message_of, dict.
  all: unfold log; run.
  all: rewrite lookup_new_socket; run.
  all: repeat split; try done; try lia; run.
  all: try (rewrite lookup_app_l by done; done).
  all: try (by rewrite lookup_new_socket).
  all: try (rewrite list_lookup_insert_ne by lia; by rewrite lookup_app_l).
  all: try (rewrite list_lookup_insert_eq by (rewrite length_app; cbn; lia); done).
Qed.

(** ** Identifiers *)

Lemma append_assoc (s1 s2 s3 : string) : (s1 +:+ s2) +:+ s3 = s1 +:+ (s2 +:+ s3).
Proof.
  induction s1 as [|a s1 IH]; [done|].
  change (String a ((s1 +:+ s2) +:+ s3) = String a (s1 +:+ (s2 +:+ s3))).
  by rewrite IH.
Qed.

Lemma dashless_app s1 s2 : dashless s1 → dashless s2 → dashless (s1 +:+ s2).
Proof.
  induction s1 as [|a s1 IH]; [done|]. intros [? ?] ?.
  change (dashless (String a (s1 +:+ s2))). split; auto.
Qed.

Lemma pretty_N_char_no_dash x : pretty_N_char x ≠ "-"%char.
Proof. unfold pretty_N_char. by repeat case_match. Qed.

(** The decimal digits of a natural number: no [-] among them, and at
    least one digit. *)
Lemma pretty_N_go_digits x :
  ∀ s, ∃ d, pretty_N_go x s = d +:+ s ∧ dashless d ∧ ((0 < x)%N → d ≠ "").
Proof.
  induction (N.lt_wf_0 x) as [x _ IH]. intros s.
  assert (x = 0 ∨ 0 < x)%N as [->|Hpos] by lia.
  { exists "". rewrite pretty_N_go_0. repeat split; lia. }
  rewrite pretty_N_go_step by done.
  destruct (IH (x `div` 10)%N) with (s := String (pretty_N_char (x `mod` 10)) s)
    as (d & -> & Hd & _).
  { by apply N.div_lt. }
  exists (d +:+ String (pretty_N_char (x `mod` 10)) "").
  rewrite append_assoc. split; [done|]. split.
  - apply dashless_app; [done|]. split; [apply pretty_N_char_no_dash|done].
  - intros _. by destruct d.
Qed.

Lemma pretty_N_digits (x : N) : dashless (pretty x) ∧ pretty x ≠ "".
Proof.
  unfold pretty, pretty_N. case_decide as Hx; [done|].
  destruct (pretty_N_go_digits x "") as (d & -> & Hd & Hne).
  assert (d ≠ "") by (apply Hne; lia).
  split; [by apply dashless_app|by destruct d].
Qed.

(** Two texts that agree and start with digits followed by [-] start
    with the same digits. *)
Lemma dashless_split d1 : ∀ d2 u1 u2,
  dashless d1 → dashless d2 →
  d1 +:+ "-" +:+ u1 = d2 +:+ "-" +:+ u2 → d1 = d2.
Proof.
  induction d1 as [|a d1 IH]; intros [|b d2] u1 u2 H1 H2 Heq; [done|..].
  - destruct H2 as [Hb _]. by injection Heq as <- _.
  - destruct H1 as [Ha _]. by injection Heq as -> _.
  - destruct H1 as [_ H1], H2 as [_ H2]. injection Heq as -> Heq.
    f_equal. by eapply IH.
Qed.

Lemma pretty_Z_dash (n1 n2 : Z) u1 u2 :
  pretty n1 +:+ "-" +:+ u1 = pretty n2 +:+ "-" +:+ u2 → n1 = n2.
Proof.
  assert (∀ n : Z, (0 ≤ n)%Z → dashless (pretty n) ∧ pretty n ≠ "") as Hnn.
  { intros [|p|p] ?; [done|apply (pretty_N_digits (Npos p))|lia]. }
  assert (∀ p, pretty (Zneg p) = "-" +:+ pretty (Npos p)) as Hneg by done.
  intros Heq.
  destruct (Z.neg_nonneg_cases n1) as [H1|H1], (Z.neg_nonneg_cases n2) as [H2|H2].
  - destruct n1 as [|p1|p1], n2 as [|p2|p2]; try lia.
    rewrite !Hneg in Heq.
    change (String "-" (pretty (N.pos p1) +:+ "-" +:+ u1) =
            String "-" (pretty (N.pos p2) +:+ "-" +:+ u2)) in Heq.
    injection Heq as Heq. apply dashless_split in Heq; try apply pretty_N_digits.
    apply (inj pretty) in Heq. congruence.
  - destruct n1 as [|p1|p1]; try lia. destruct (Hnn n2 H2) as [Hd Hne].
    rewrite Hneg in Heq. destruct (pretty n2) as [|b d]; [done|].
    destruct Hd as [Hb _]. by injection Heq as <- _.
  - destruct n2 as [|p2|p2]; try lia. destruct (Hnn n1 H1) as [Hd Hne].
    rewrite Hneg in Heq. destruct (pretty n1) as [|b d]; [done|].
    destruct Hd as [Hb _]. by injection Heq as -> _.
  - destruct (Hnn n1 H1) as [Hd1 _], (Hnn n2 H2) as [Hd2 _].
    apply dashless_split in Heq; try done. by apply (inj pretty) in Heq.
Qed.

(** Identifiers made from different counters differ, whatever the clock
    read and however it is written. *)
Lemma make_id_counter n1 t1 n2 t2 : make_id n1 t1 = make_id n2 t2 → n1 = n2.
Proof.
  unfold make_id. intros Heq. apply (inj (String.app "py-")) in Heq.
  by eapply pretty_Z_dash.
Qed.

Lemma ids_tracked_same s s' :
  message_id (self s') = message_id (self s) →
  outbox (env s') = outbox (env s) →
  ids_tracked s → ids_tracked s'.
Proof.
  intros Hm Ho (stamps & Hids & Hsort & Hle). exists stamps.
  unfold sent_ids in *. by rewrite Hm, Ho.
Qed.

Lemma keeps_ret {A} (a : A) : keeps (ret a).
Proof. by intros s. Qed.

Lemma keeps_raise {A} e : keeps (@raise A e).
Proof. by intros s. Qed.

Lemma keeps_bind {A B} (m : M A) (k : A → M B) :
  keeps m → (∀ a, keeps (k a)) → keeps (bind m k).
Proof.
  intros Hm Hk s Hs. specialize (Hm s Hs). unfold bind.
  destruct (m s) as [[a|e|] s1]; [by apply Hk|done..].
Qed.

Lemma keeps_try_except {A} (body : M A) handler :
  keeps body → (∀ e h, handler e = Some h → keeps h) →
  keeps (try_except body handler).
Proof.
  intros Hb Hh s Hs. specialize (Hb s Hs). unfold try_except.
  destruct (body s) as [[a|e|] s1]; [done| |done].
  destruct (handler e) as [h|] eqn:He; [|done]. by eapply Hh.
Qed.

Lemma keeps_if {A} (b : bool) (m1 m2 : M A) :
  keeps m1 → keeps m2 → keeps (if b then m1 else m2).
Proof. by destruct b. Qed.

Lemma keeps_get_self : keeps get_self.
Proof. by intros s. Qed.

Lemma keeps_get_env : keeps get_env.
Proof. by intros s. Qed.

Lemma keeps_time_time : keeps time_time.
Proof. by intros s. Qed.

Lemma keeps_assign_ws v : keeps (assign_ws v).
Proof. intros s. by apply ids_tracked_same. Qed.

Lemma keeps_print text : keeps (print text).
Proof. intros s. by apply ids_tracked_same. Qed.

Lemma keeps_create_connection url : keeps (create_connection url).
Proof.
  intros s. apply ids_tracked_same; unfold create_connection; run;
    by repeat case_match.
Qed.

Lemma keeps_ws_recv h : keeps (ws_recv h).
Proof.
  intros s. apply ids_tracked_same; unfold ws_recv; run; by repeat case_match.
Qed.

Lemma keeps_ws_close h : keeps (ws_close h).
Proof.
  intros s. apply ids_tracked_same; unfold ws_close; run; by repeat case_match.
Qed.

Lemma keeps_on_ws {A} attr (call : nat → M A) :
  (∀ h, keeps (call h)) → keeps (on_ws attr call).
Proof.
  intros Hc s Hs. unfold on_ws. run. destruct (ws (self s)); [by apply Hc|done].
Qed.

Lemma keeps_json_loads text : keeps (json_loads text).
Proof. destruct text; [apply keeps_ret|apply keeps_raise]. Qed.

Lemma keeps_dict_get d key : keeps (dict_get d key).
Proof. destruct d; first [apply keeps_ret|apply keeps_raise]. Qed.

Lemma keeps_subscript d key : keeps (subscript d key).
Proof.
  destruct d; cbn [subscript]; try apply keeps_raise.
  case_match; [apply keeps_ret|apply keeps_raise].
Qed.

(** [send_message] raises the counter before it makes the identifier,
    so the new identifier comes from a counter above all the others. *)
Lemma keeps_send_message msg_type payload : keeps (send_message msg_type payload).
Proof.
  intros s (stamps & Hids & Hsort & Hle).
  assert (Forall (λ stamp : Z * Q, (stamp.1 ≤ message_id (self s) + 1)%Z) stamps)
    as Hle'.
  { eapply Forall_impl; [exact Hle|]. intros stamp ?. cbn in *. lia. }
  destruct (ws (self s)) as [h|] eqn:Hws;
    [destruct (chans (env s) !! h) as [c|] eqn:Hch;
       [destruct (is_open c) eqn:Hop|]|].
  - rewrite (send_message_connected s h c) by done.
    exists (stamps ++ [((message_id (self s) + 1)%Z, now (env s))]).
    unfold after_send, sent_ids in *. run. rewrite !fmap_app, Hids.
    split; [done|]. split.
    + apply StronglySorted_app. split; [|split].
      * intros k1 k2 Hk1 Hk2. apply list_elem_of_fmap in Hk1 as ([k t] & -> & Hin).
        cbn in Hk2. apply list_elem_of_singleton in Hk2 as ->.
        rewrite Forall_forall in Hle. specialize (Hle _ Hin). cbn in *. lia.
      * done.
      * repeat constructor.
    + apply Forall_app. split; [done|]. by constructor.
  - exists stamps. destruct s as [[ho po de w mi] [n cs ds ob so]].
    cbn [self env ws chans] in *. subst w.
    unfold send_message, ws_send, sent_ids in *. destruct de; run.
    all: rewrite Hch; run; by rewrite Hop.
  - exists stamps. destruct s as [[ho po de w mi] [n cs ds ob so]].
    cbn [self env ws chans] in *. subst w.
    unfold send_message, ws_send, sent_ids in *. destruct de; run.
    all: by rewrite Hch.
  - exists stamps. destruct s as [[ho po de w mi] [n cs ds ob so]].
    cbn [self env ws chans] in *. subst w.
    unfold send_message, ws_send, sent_ids in *. by destruct de.
Qed.

Create HintDb keeps.

Hint Resolve keeps_ret keeps_raise keeps_bind keeps_if keeps_get_self
  keeps_get_env keeps_time_time keeps_assign_ws keeps_print
  keeps_create_connection keeps_ws_recv keeps_ws_close keeps_on_ws
  keeps_json_loads keeps_dict_get keeps_subscript keeps_send_message : keeps.

Lemma keeps_connect : keeps connect.
Proof. unfold connect. auto 20 with keeps. Qed.

Lemma keeps_disconnect : keeps disconnect.
Proof.
  unfold disconnect. apply keeps_bind; [auto with keeps|].
  intros c. destruct (ws c); auto with keeps.
Qed.

Lemma keeps_wait_loop ident start_time timeout fuel :
  keeps (wait_loop fuel ident start_time timeout).
Proof.
  induction fuel as [|fuel IH]; [by intros s|].
  cbn [wait_loop]. apply keeps_bind; [auto with keeps|]. intros t.
  apply keeps_if; [|auto with keeps].
  apply keeps_bind.
  - apply keeps_try_except; [auto 20 with keeps|].
    intros e h. destruct e; intros [= <-]; auto with keeps.
  - intros [data|]; auto with keeps.
Qed.

Lemma keeps_wait_for_response ident timeout : keeps (wait_for_response ident timeout).
Proof.
  intros s Hs. rewrite wait_for_response_loop. by apply keeps_wait_loop.
Qed.

Lemma keeps_perform rq : keeps (perform rq).
Proof.
  rewrite perform_unfold. unfold fail_with, take_result.
  pose proof keeps_wait_for_response. auto 20 with keeps.
Qed.

Lemma keeps_exec c : keeps (exec c).
Proof.
  pose proof keeps_connect. pose proof keeps_disconnect.
  pose proof keeps_wait_for_response. pose proof keeps_perform.
  destruct c; cbn [exec]; auto with keeps.
  - apply keeps_bind; [|auto with keeps].
    apply (keeps_perform (CallTool "captureVisualization" _)).
  - apply keeps_bind; [|auto with keeps].
    apply (keeps_perform (CallTool "getCurrentProject" _)).
Qed.

Lemma session_tracked cs : ∀ s, ids_tracked s → ids_tracked (session cs s).
Proof.
  induction cs as [|c cs IH]; intros s Hs; [done|].
  cbn [session]. pose proof (keeps_exec c s Hs) as Hc.
  destruct (exec c s) as [[[]|e|] s1]; auto.
Qed.

Lemma tracked_NoDup stamps :
  StronglySorted Z.lt stamps.*1 → NoDup (id_of_stamp <$> stamps).
Proof.
  induction stamps as [|[k t] stamps IH]; cbn; [constructor|].
  rewrite StronglySorted_cons. intros [Hlt Hsort].
  apply NoDup_cons. split; [|by apply IH].
  intros Hin. apply list_elem_of_fmap in Hin as ([k' t'] & Heq & Hin).
  assert (∀ a b, JStr a = JStr b → a = b) as HJ by (by intros ?? [= ->]).
  apply HJ, make_id_counter in Heq. cbn [fst] in Heq. subst k'.
  rewrite Forall_forall in Hlt.
  assert (k < k)%Z; [|lia]. apply Hlt.
  apply list_elem_of_fmap. by exists (k, t').
Qed.


(** A peer that stays silent: the socket has no receive timeout of its
    own to end the [recv], and the loop looks at the clock only between
    two receives. *)
Lemma wait_for_response_silent s h c ident timeout :
  ws (self s) = Some h → chans (env s) !! h = Some c → is_open c = true →
  inbound c = [] → (0 < timeout)%Z →
  wait_for_response ident timeout s = (Hang, s).
Proof.
  intros Hws Hch Hop Hin Hpos. rewrite wait_for_response_loop.
  pose proof (in_time_start timeout (now (env s)) Hpos) as Htime.
  unfold in_time in Htime. cbn [wait_loop]. unfold ws_recv. run.
  rewrite Htime. run. rewrite Hws. run. by rewrite Hch, Hop, Hin.
Qed.

End properties.

(** * Further properties *)

Section coverage.
Context `{PyFormat} `{PyErrorText}.

Ltac run :=
  repeat progress (
    cbv beta iota zeta delta
      [bind ret raise get_self assign_ws assign_message_id get_env put_env
       time_time print on_ws try_except json_dumps json_loads];
    cbn [self env host port debug ws message_id now chans dials outbox
         stdout peer is_open inbound set_ws set_message_id set_now set_chans
         set_dials set_outbox set_stdout set_inbound set_is_open fst snd]).

Ltac crunch := repeat (case_match; run; simplify_eq; try done).

Ltac run_in_hyp Hyp :=
  repeat progress (
    cbv beta iota zeta delta
      [bind ret raise get_self assign_ws assign_message_id get_env put_env
       time_time print on_ws try_except json_dumps json_loads] in Hyp;
    cbn [self env host port debug ws message_id now chans dials outbox
         stdout peer is_open inbound set_ws set_message_id set_now set_chans
         set_dials set_outbox set_stdout set_inbound set_is_open fst snd] in Hyp).

Lemma bind_Raise {A B} (m : M A) (k : A → M B) s e s' :
  m s = (Raise e, s') → bind m k s = (Raise e, s').
Proof. unfold bind. by intros ->. Qed.

(** ** [send_message] and the requests, when they fail *)

Lemma send_message_no_socket msg_type payload s :
  ws (self s) = None →
  send_message msg_type payload s =
    (Raise (AttributeError "send"),
     {| self := set_message_id (message_id (self s) + 1) (self s);
        env := log (debug (self s)) ("Sending: " +:+ msg_type) (env s) |}).
Proof.
  intros Hws. destruct s as [[ho po de w mi] e]. cbn [self ws] in Hws. subst w.
  unfold send_message, log. by destruct de.
Qed.

Lemma send_message_cases msg_type payload s :
  message_id (self (send_message msg_type payload s).2) = (message_id (self s) + 1)%Z ∧
  ws (self (send_message msg_type payload s).2) = ws (self s) ∧
  chans (env (send_message msg_type payload s).2) = chans (env s) ∧
  ((∃ ident h frame,
      (send_message msg_type payload s).1 = Return ident ∧
      ws (self s) = Some h ∧
      outbox (env (send_message msg_type payload s).2) = outbox (env s) ++ [(h, frame)])
   ∨
   (∃ e,
      (send_message msg_type payload s).1 = Raise e ∧
      (e = AttributeError "send" ∨ e = WebSocketConnectionClosedException) ∧
      outbox (env (send_message msg_type payload s).2) = outbox (env s))).
Proof.
  destruct (ws (self s)) as [h|] eqn:Hws;
    [destruct (chans (env s) !! h) as [c|] eqn:Hch;
       [destruct (is_open c) eqn:Hop|]|].
  - rewrite (send_message_connected s h c) by done.
    unfold after_send. run. rewrite log_chans. repeat split; try done.
    left. by eexists _, _, _.
  - destruct s as [[ho po de w mi] [n cs ds ob so]].
    cbn [self env ws chans] in *. subst w.
    unfold send_message, ws_send. destruct de; run.
    all: rewrite Hch; run; rewrite Hop; run.
    all: repeat split; try done; right; eexists; repeat split; auto.
  - destruct s as [[ho po de w mi] [n cs ds ob so]].
    cbn [self env ws chans] in *. subst w.
    unfold send_message, ws_send. destruct de; run.
    all: rewrite Hch; run.
    all: repeat split; try done; right; eexists; repeat split; auto.
  - rewrite send_message_no_socket by done. run. rewrite log_chans.
    repeat split; try done. right. eexists. repeat split; auto.
    unfold log. by destruct (debug (self s)).
Qed.

(** X1.  Every call of [send_message] raises the counter by one and
    leaves the socket the client holds and all the sockets as they are.
    It either returns, and then has transmitted one frame on the
    client's socket, or raises for want of a socket or of an open one,
    and then has transmitted nothing: a counter value is never used
    twice, but a failed send uses one up. *)
Theorem send_message_counts msg_type payload s :
  message_id (self (send_message msg_type payload s).2) = (message_id (self s) + 1)%Z ∧
  ws (self (send_message msg_type payload s).2) = ws (self s) ∧
  chans (env (send_message msg_type payload s).2) = chans (env s) ∧
  ((∃ ident h frame,
      (send_message msg_type payload s).1 = Return ident ∧
      ws (self s) = Some h ∧
      outbox (env (send_message msg_type payload s).2) = outbox (env s) ++ [(h, frame)])
   ∨
   (∃ e,
      (send_message msg_type payload s).1 = Raise e ∧
      (e = AttributeError "send" ∨ e = WebSocketConnectionClosedException) ∧
      outbox (env (send_message msg_type payload s).2) = outbox (env s))).
Proof. apply send_message_cases. Qed.

(** X2.  A request made on a client that holds no socket (before
    [connect], or after [disconnect]) raises [AttributeError]: nothing is
    transmitted, no reply is awaited, and the counter has moved on. *)
Theorem request_needs_socket rq s :
  ws (self s) = None →
  ∃ s', perform rq s = (Raise (AttributeError "send"), s') ∧
        outbox (env s') = outbox (env s) ∧
        chans (env s') = chans (env s) ∧
        now (env s') = now (env s) ∧
        message_id (self s') = (message_id (self s) + 1)%Z.
Proof.
  intros Hws. eexists. split.
  - rewrite perform_unfold. apply bind_Raise. by apply send_message_no_socket.
  - unfold log. by destruct (debug (self s)).
Qed.

(** X9.  A reply that matches but lacks a field makes the request fail
    with [KeyError] on that field: [type] first, then [payload], then
    [result] when the type is not ["tool_error"]. *)
Theorem reply_missing_field rq s ident s1 fields s2 :
  send_message (request_type rq) (request_payload rq) s = (Return ident, s1) →
  wait_for_response ident default_timeout s1 = (Return (JObj fields), s2) →
  (fields !! "type" = None → perform rq s = (Raise (KeyError "type"), s2)) ∧
  (∀ ty, fields !! "type" = Some ty → fields !! "payload" = None →
         perform rq s = (Raise (KeyError "payload"), s2)) ∧
  (∀ ty payload,
     fields !! "type" = Some ty → eq_str ty "tool_error" = false →
     fields !! "payload" = Some (JObj payload) → payload !! "result" = None →
     perform rq s = (Raise (KeyError "result"), s2)).
Proof.
  intros Hsend Hwait. split; [|split].
  - intros Hty. rewrite perform_unfold.
    rewrite (bind_Return _ _ _ _ _ Hsend), (bind_Return _ _ _ _ _ Hwait).
    unfold subscript at 1. by rewrite Hty.
  - intros ty Hty Hpay.
    rewrite (perform_replied _ _ _ _ _ _ _ Hsend Hwait Hty).
    unfold fail_with, take_result, subscript.
    destruct (eq_str ty "tool_error"); run; by rewrite Hpay.
  - intros ty payload Hty Hne Hpay Hres.
    rewrite (perform_replied _ _ _ _ _ _ _ Hsend Hwait Hty), Hne.
    unfold take_result, subscript. run. rewrite Hpay. run. by rewrite Hres.
Qed.

(** X10.  An error reply is unwrapped by [create_pipeline] and
    [test_pipeline] as it is by [call_tool]: each raises an [Exception]
    whose message is its own prefix followed by the [message] of the
    error, written as [str] writes it. *)
Theorem pipeline_errors_unwrapped rq s ident s1 fields payload error m s2 :
  send_message (request_type rq) (request_payload rq) s = (Return ident, s1) →
  wait_for_response ident default_timeout s1 = (Return (JObj fields), s2) →
  fields !! "type" = Some (JStr "tool_error") →
  fields !! "payload" = Some (JObj payload) →
  payload !! "error" = Some (JObj error) →
  error !! "message" = Some m →
  perform rq s =
    (Raise (Exception_
       (match rq with
        | CallTool _ _ => "Tool error: "
        | CreatePipeline _ => "Pipeline creation failed: "
        | TestPipeline _ _ => "Pipeline test failed: "
        end +:+ py_str m)), s2).
Proof.
  intros Hsend Hwait Hty Hpay Herr Hmsg.
  rewrite (perform_replied _ _ _ _ _ _ _ Hsend Hwait Hty).
  unfold fail_with, subscript. cbn [eq_str String.eqb]. run.
  rewrite Hpay. run. rewrite Herr. run. rewrite Hmsg. by destruct rq.
Qed.

(** X11.  An error reply whose payload has no [error], or whose [error]
    has no [message], does not make the request raise its [Exception]:
    it fails with [KeyError] on the missing field. *)
Theorem error_reply_malformed rq s ident s1 fields payload s2 :
  send_message (request_type rq) (request_payload rq) s = (Return ident, s1) →
  wait_for_response ident default_timeout s1 = (Return (JObj fields), s2) →
  fields !! "type" = Some (JStr "tool_error") →
  fields !! "payload" = Some (JObj payload) →
  (payload !! "error" = None → perform rq s = (Raise (KeyError "error"), s2)) ∧
  (∀ error, payload !! "error" = Some (JObj error) → error !! "message" = None →
            perform rq s = (Raise (KeyError "message"), s2)).
Proof.
  intros Hsend Hwait Hty Hpay.
  rewrite (perform_replied _ _ _ _ _ _ _ Hsend Hwait Hty).
  unfold fail_with, subscript. cbn [eq_str String.eqb]. run.
  rewrite Hpay. run. split.
  - by intros ->.
  - intros error -> Hmsg. run. by rewrite Hmsg.
Qed.

(** A request answered at once by a reply that is not an error. *)
Lemma perform_answered rq s h c t reply ty payload result rest :
  ws (self s) = Some h → chans (env s) !! h = Some c → is_open c = true →
  inbound c = (t, message reply) :: rest →
  reply !! "id" = Some (JStr (make_id (message_id (self s) + 1) (now (env s)))) →
  reply !! "type" = Some ty → eq_str ty "tool_error" = false →
  reply !! "payload" = Some (JObj payload) →
  payload !! "result" = Some result →
  ∃ s', perform rq s = (Return result, s') ∧
        received h c rest t
          (after_send h (request_type rq) (request_payload rq) s) s'.
Proof.
  intros Hws Hch Hop Hin Hid Hty Hne Hpay Hres.
  pose proof (send_message_connected s h c (request_type rq) (request_payload rq)
    Hws Hch Hop) as Hsend.
  destruct (wait_for_response_next
    (after_send h (request_type rq) (request_payload rq) s)
    h c (make_id (message_id (self s) + 1) (now (env s))) default_timeout
    t reply rest) as (s2 & Hwait & Hrec); try done.
  { unfold after_send. run. by rewrite log_chans. }
  exists s2. split; [|done].
  rewrite (perform_replied rq _ _ _ _ _ _ Hsend Hwait Hty), Hne.
  unfold take_result, subscript. run. rewrite Hpay. run. by rewrite Hres.
Qed.

(** X12.  The round trip of a request.  On a client that holds an open
    socket, each of [call_tool], [create_pipeline] and [test_pipeline]
    transmits one message, with its own type tag and payload and a fresh
    [id]; when the next inbound message carries that [id], a type other
    than ["tool_error"] and a payload with a [result], the method
    returns that [result], and the message is consumed. *)
Theorem request_round_trip rq s h c t reply ty payload result rest :
  ws (self s) = Some h → chans (env s) !! h = Some c → is_open c = true →
  inbound c = (t, message reply) :: rest →
  reply !! "id" = Some (JStr (make_id (message_id (self s) + 1) (now (env s)))) →
  reply !! "type" = Some ty → eq_str ty "tool_error" = false →
  reply !! "payload" = Some (JObj payload) →
  payload !! "result" = Some result →
  ∃ s', perform rq s = (Return result, s') ∧
        outbox (env s') = outbox (env s) ++
          [(h, json_dumps (message_of (message_id (self s) + 1) (now (env s))
                 (match rq with
                  | CallTool _ _ => "tool_call"
                  | CreatePipeline _ => "pipeline_create"
                  | TestPipeline _ _ => "pipeline_test"
                  end)
                 (match rq with
                  | CallTool tool args =>
                      dict [("tool", JStr tool); ("args", args)]
                  | CreatePipeline spec =>
                      dict [("spec", spec);
                            ("options", dict [("validateFirst", JBool true);
                                              ("autoConnect", JBool true)])]
                  | TestPipeline pipeline_id test_data =>
                      dict [("pipelineId", JStr pipeline_id);
                            ("testData", JArr test_data);
                            ("options",
                             dict [("timeout", JInt 30000);
                                   ("captureIntermediateResults", JBool true)])]
                  end)))] ∧
        chans (env s') !! h = Some (set_inbound rest c) ∧
        message_id (self s') = (message_id (self s) + 1)%Z.
Proof.
  intros Hws Hch Hop Hin Hid Hty Hne Hpay Hres.
  destruct (perform_answered rq s h c t reply ty payload result rest)
    as (s' & Hrun & Hself & Hchans & Hnow & Hout & Hdial); try done.
  exists s'. split; [done|]. rewrite Hout, Hchans, Hself.
  unfold after_send. run. rewrite log_chans. split; [by destruct rq|].
  split; [|done]. apply list_lookup_insert_eq. by eapply lookup_lt_Some.
Qed.

(** X13.  [capture_visualization(format, quality)] is the tool call
    ["captureVisualization"] with the arguments [format] and [quality]:
    on a client that holds an open socket it transmits that call, and
    returns the [result] of a matching reply that is not an error. *)
Theorem capture_visualization_round_trip format quality s h c t reply ty
    payload result rest :
  ws (self s) = Some h → chans (env s) !! h = Some c → is_open c = true →
  inbound c = (t, message reply) :: rest →
  reply !! "id" = Some (JStr (make_id (message_id (self s) + 1) (now (env s)))) →
  reply !! "type" = Some ty → eq_str ty "tool_error" = false →
  reply !! "payload" = Some (JObj payload) →
  payload !! "result" = Some result →
  ∃ s', capture_visualization format quality s = (Return result, s') ∧
        outbox (env s') = outbox (env s) ++
          [(h, json_dumps (message_of (message_id (self s) + 1) (now (env s))
                 "tool_call"
                 (dict [("tool", JStr "captureVisualization");
                        ("args", dict [("format", JStr format);
                                       ("quality", JFloat quality)])])))].
Proof.
  intros Hws Hch Hop Hin Hid Hty Hne Hpay Hres.
  destruct (perform_answered
    (CallTool "captureVisualization"
       (dict [("format", JStr format); ("quality", JFloat quality)]))
    s h c t reply ty payload result rest)
    as (s' & Hrun & Hself & Hchans & Hnow & Hout & Hdial); try done.
  exists s'. split; [done|]. rewrite Hout. unfold after_send. by run.
Qed.

(** ** [connect] *)

(** X20.  When the connection is made, [connect] stores the new socket
    in [self.ws] and transmits one message on it, of type ["connect"],
    whose payload declares the client ([clientId], made of the clock),
    the version ["1.0.0"] and the capabilities [pipeline], [tools] and
    [state].  It does not wait for an answer: nothing inbound is read,
    so what the server answers to the handshake is still to be received
    by the first [wait_for_response]. *)
Theorem connect_handshake s script ds :
  dials (env s) = Accepted script :: ds →
  ∃ s', connect s = (Return tt, s') ∧
        ws (self s') = Some (length (chans (env s))) ∧
        message_id (self s') = (message_id (self s) + 1)%Z ∧
        chans (env s') = chans (env s) ++
          [{| peer := "ws://" +:+ host (self s) +:+ ":" +:+ pretty (port (self s));
              is_open := true; inbound := script |}] ∧
        now (env s') = now (env s) ∧
        outbox (env s') = outbox (env s) ++
          [(length (chans (env s)),
            json_dumps (message_of (message_id (self s) + 1) (now (env s)) "connect"
              (dict [
                 ("clientId", JStr ("python-client-" +:+ float_str (now (env s))));
                 ("version", JStr "1.0.0");
                 ("capabilities",
                  JArr [JStr "pipeline"; JStr "tools"; JStr "state"])])))].
Proof.
  intros Hdial. exists (after_connect script ds s).
  split; [by apply connect_accepted|].
  destruct s as [[ho po de w mi] [n cs ds' ob so]].
  unfold after_connect, after_send, log, url_of, handshake.
  by destruct de.
Qed.

(** ** [connect], when it fails *)

Lemma connect_fails s :
  (∀ script ds, dials (env s) ≠ Accepted script :: ds) →
  ∃ s', connect s = (Raise ConnectionRefusedError, s') ∧
        self s' = self s ∧
        chans (env s') = chans (env s) ∧
        outbox (env s') = outbox (env s).
Proof.
  intros Hrefused. destruct s as [[ho po de w mi] [n cs ds ob so]].
  cbn [env dials] in *. unfold connect, create_connection.
  destruct ds as [|[|script] ds]; [| |by destruct (Hrefused script ds)].
  all: destruct de; run; by eexists.
Qed.

(** X14.  When the connection cannot be made, [connect] raises what
    [create_connection] raised and leaves the client as it was: it still
    holds the socket it held, if any, nothing was transmitted and the
    counter has not moved. *)
Theorem connect_refused s :
  (∀ script ds, dials (env s) ≠ Accepted script :: ds) →
  ∃ s', connect s = (Raise ConnectionRefusedError, s') ∧
        self s' = self s ∧
        chans (env s') = chans (env s) ∧
        outbox (env s') = outbox (env s).
Proof. apply connect_fails. Qed.

(** ** [wait_for_response], when it fails *)

(** X3.  With a [timeout] that is not positive, [wait_for_response]
    raises [TimeoutError] at once, whatever the client and its socket:
    nothing is received and the state is untouched. *)
Theorem wait_for_response_no_time ident timeout s :
  (timeout ≤ 0)%Z →
  wait_for_response ident timeout s =
    (Raise (TimeoutError ("No response received for message " +:+ ident)), s).
Proof.
  intros Hle. rewrite wait_for_response_loop. apply wait_loop_expired.
  unfold in_time, Qltb. rewrite negb_true_iff, not_false_iff_true.
  apply Qle_bool_iff.
  assert (inject_Z timeout <= inject_Z 0)%Q as Hq by (by rewrite <- Zle_Qle).
  change (inject_Z 0) with 0%Q in Hq. lra.
Qed.

(** X4.  On a client that holds no socket, [wait_for_response] with a
    positive [timeout] raises [AttributeError] and changes nothing. *)
Theorem wait_for_response_needs_socket ident timeout s :
  ws (self s) = None → (0 < timeout)%Z →
  wait_for_response ident timeout s = (Raise (AttributeError "recv"), s).
Proof.
  intros Hws Hpos. rewrite wait_for_response_loop.
  pose proof (in_time_start timeout (now (env s)) Hpos) as Htime.
  unfold in_time in Htime. cbn [wait_loop]. run. rewrite Htime. run.
  by rewrite Hws.
Qed.

(** A preorder [R] on states that the steps of a statement respect is
    respected by the statement. *)
Section stays.
Context (R : state → state → Prop) `{!PreOrder R}.
#[local] Set Default Proof Using "Type*".

Lemma stays_ret {A} (a : A) : stays R (ret a).
Proof. intros s. reflexivity. Qed.

Lemma stays_raise {A} e : stays R (@raise A e).
Proof. intros s. reflexivity. Qed.

Lemma stays_bind {A B} (m : M A) (k : A → M B) :
  stays R m → (∀ a, stays R (k a)) → stays R (bind m k).
Proof.
  intros Hm Hk s. specialize (Hm s). unfold bind.
  destruct (m s) as [[a|e|] s1]; [|done..].
  etrans; [exact Hm|apply Hk].
Qed.

Lemma stays_try_except {A} (body : M A) handler :
  stays R body → (∀ e h, handler e = Some h → stays R h) →
  stays R (try_except body handler).
Proof.
  intros Hb Hh s. specialize (Hb s). unfold try_except.
  destruct (body s) as [[a|e|] s1]; [done| |done].
  destruct (handler e) as [h|] eqn:He; [|done].
  etrans; [exact Hb|by eapply Hh].
Qed.

Lemma stays_if {A} (b : bool) (m1 m2 : M A) :
  stays R m1 → stays R m2 → stays R (if b then m1 else m2).
Proof. by destruct b. Qed.

Lemma stays_get_self : stays R get_self.
Proof. intros s. reflexivity. Qed.

Lemma stays_time_time : stays R time_time.
Proof. intros s. reflexivity. Qed.

Lemma stays_json_loads text : stays R (json_loads text).
Proof. destruct text; [apply stays_ret|apply stays_raise]. Qed.

Lemma stays_dict_get d key : stays R (dict_get d key).
Proof. destruct d; first [apply stays_ret|apply stays_raise]. Qed.

Lemma stays_subscript d key : stays R (subscript d key).
Proof.
  destruct d; cbn [subscript]; try apply stays_raise.
  case_match; [apply stays_ret|apply stays_raise].
Qed.

End stays.

Global Instance quiet_preorder : PreOrder quiet.
Proof.
  split.
  - by intros s.
  - intros s1 s2 s3 (Hs & Ho & Hd & Hl & Hc) (Hs' & Ho' & Hd' & Hl' & Hc').
    repeat split; try congruence.
    intros h Hh. rewrite Hc', Hc; [done..|]. by rewrite Hs.
Qed.

Lemma quiet_print text : stays quiet (print text).
Proof. by intros s. Qed.

Lemma quiet_recv : stays quiet (on_ws "recv" ws_recv).
Proof.
  intros s. unfold on_ws, ws_recv. run.
  destruct (ws (self s)) as [h|] eqn:Hws; [|done]. run.
  repeat (case_match; run; simplify_eq; try done).
  all: repeat split; try done; run; try (by rewrite length_insert).
  all: intros h' Hne; rewrite list_lookup_insert_ne; [done|congruence].
Qed.

Create HintDb stays.
Hint Resolve stays_ret stays_raise stays_bind stays_if stays_get_self
  stays_time_time stays_json_loads stays_dict_get stays_subscript
  quiet_preorder quiet_print quiet_recv : stays.

Lemma quiet_wait_loop ident start_time timeout fuel :
  stays quiet (wait_loop fuel ident start_time timeout).
Proof.
  induction fuel as [|fuel IH]; [by intros s|].
  cbn [wait_loop]. apply stays_bind; try apply _; [auto with stays|]. intros t.
  apply stays_if; try apply _; [|auto with stays].
  apply stays_bind; try apply _.
  - apply stays_try_except; try apply _; [auto 20 with stays|].
    intros e h. destruct e; intros [= <-]; auto with stays.
  - intros [data|]; auto with stays.
Qed.

Lemma quiet_wait_for_response ident timeout :
  stays quiet (wait_for_response ident timeout).
Proof. intros s. rewrite wait_for_response_loop. apply quiet_wait_loop. Qed.

(** X5.  [wait_for_response] only receives, and only on the socket the
    client holds: whatever it ends with, the client object, the frames
    transmitted so far and every other socket are as they were, and no
    socket was opened. *)
Theorem wait_for_response_quiet ident timeout s :
  quiet s (wait_for_response ident timeout s).2.
Proof. apply quiet_wait_for_response. Qed.

(** X15.  Every request, whatever it ends with, moves the counter by
    exactly one, transmits at most one frame, and that on the socket the
    client holds, and leaves the client holding the same socket: a
    request never sends twice and never retries. *)
Theorem request_counts rq s :
  message_id (self (perform rq s).2) = (message_id (self s) + 1)%Z ∧
  ws (self (perform rq s).2) = ws (self s) ∧
  (outbox (env (perform rq s).2) = outbox (env s) ∨
   ∃ h frame, ws (self s) = Some h ∧
              outbox (env (perform rq s).2) = outbox (env s) ++ [(h, frame)]).
Proof.
  pose proof (send_message_cases (request_type rq) (request_payload rq) s)
    as (Hmid & Hws & _ & Hcase).
  rewrite perform_unfold.
  destruct (send_message (request_type rq) (request_payload rq) s)
    as [[ident|e|] s1] eqn:Hsend; cbn [fst snd] in *.
  - rewrite (bind_Return _ _ _ _ _ Hsend).
    assert (stays quiet (λ s,
      (response <- wait_for_response ident default_timeout ;;
       ty <- subscript response "type" ;;
       if eq_str ty "tool_error"
       then fail_with (failure_prefix rq) response
       else take_result response) s)) as Hquiet.
    { pose proof quiet_wait_for_response. unfold fail_with, take_result.
      intros s0. apply stays_bind; try apply _; [done|].
      intros response. auto 20 with stays. }
    destruct (Hquiet s1) as (Hself & Hout & _). rewrite Hself, Hout.
    split; [done|]. split; [done|].
    destruct Hcase as [(i & h & frame & _ & Hh & Hob)|(e & He & _)]; [|done].
    right. by exists h, frame.
  - rewrite (bind_Raise _ _ _ _ _ Hsend). cbn [fst snd].
    split; [done|]. split; [done|].
    destruct Hcase as [(i & h & frame & Hr & _)|(e' & _ & _ & Hob)]; [done|].
    by left.
  - destruct Hcase as [(i & h & frame & Hr & _)|(e' & Hr & _)]; done.
Qed.

Lemma wait_loop_aborts fuel ident start_time timeout s h c t a e rest :
  ws (self s) = Some h → chans (env s) !! h = Some c → is_open c = true →
  inbound c = (t, a) :: rest →
  in_time start_time timeout (now (env s)) →
  frame_failure a = Some e →
  ∃ s', wait_loop (S fuel) ident start_time timeout s = (Raise e, s') ∧
        self s' = self s ∧ outbox (env s') = outbox (env s) ∧
        inbound <$> chans (env s') !! h = Some rest.
Proof.
  intros Hws Hch Hop Hin Htime Hfail.
  pose proof (lookup_lt_Some _ _ _ Hch) as Hlt.
  destruct s as [[ho po de w mi] [n cs ds ob so]].
  cbn [self env ws chans now] in *. subst w.
  cbn [wait_loop]. unfold ws_recv. run. rewrite Htime. run.
  rewrite Hch, Hop, Hin.
  destruct a as [[j|raw]| |]; try destruct j; simplify_eq/=.
  all: destruct de; unfold dict_get; run; (eexists; split; [reflexivity|]).
  all: run; by rewrite list_lookup_insert_eq.
Qed.

(** X8.  Only the receive timeout of the socket is caught inside the
    loop.  When, after entries the loop passes over, the client's socket
    delivers text that is not JSON, a JSON document that is not an
    object, or loses the connection, [wait_for_response] ends at once
    with [JSONDecodeError], [AttributeError] or the exception of the
    socket: what was inbound behind that entry is not read, the awaited
    reply included. *)
Theorem wait_for_response_aborts s h c ident timeout early t a e rest :
  ws (self s) = Some h → chans (env s) !! h = Some c → is_open c = true →
  inbound c = early ++ (t, a) :: rest →
  Forall (λ e, skipped ident e.2) early →
  Forall (in_time (now (env s)) timeout) (now (env s) :: early.*1) →
  frame_failure a = Some e →
  ∃ s', wait_for_response ident timeout s = (Raise e, s') ∧
        self s' = self s ∧ outbox (env s') = outbox (env s) ∧
        inbound <$> chans (env s') !! h = Some rest.
Proof.
  intros Hws Hch Hop Hin Hsk Htm Hfail.
  pose proof (lookup_lt_Some _ _ _ Hch) as Hlt.
  destruct (wait_loop_skips ident (now (env s)) timeout h early
    (S (S (length rest))) s c ((t, a) :: rest))
    as (s1 & Hrun & Hself & Hchans & Hnow & Hout & Hdial); try done.
  { unfold readings_before. by apply Forall_take. }
  destruct (wait_loop_aborts (S (length rest)) ident (now (env s)) timeout s1 h
    (set_inbound ((t, a) :: rest) c) t a e rest)
    as (s2 & Hrun2 & Hself2 & Hout2 & Hin2); try done.
  { by rewrite Hself. }
  { rewrite Hchans. by apply list_lookup_insert_eq. }
  { rewrite Hnow. unfold clock_after.
    apply (Forall_forall (in_time (now (env s)) timeout)) with
      (l := now (env s) :: early.*1); [done|].
    destruct (last early.*1) as [t'|] eqn:Hlast; cbn; [|left].
    right. by apply last_Some_elem_of. }
  exists s2. split; [|repeat split; congruence].
  rewrite wait_for_response_loop, (receives_left_connected s h c) by done.
  rewrite Hin, length_app. cbn [length].
  replace (S (length early + S (length rest)))
    with (length early + S (S (length rest))) by lia.
  by rewrite Hrun.
Qed.

Lemma eq_str_false_lookup (fields : gmap string json) key s :
  eq_str (default JNull (fields !! key)) s = false → fields !! key ≠ Some (JStr s).
Proof.
  intros Hne Heq. rewrite Heq in Hne. cbn in Hne.
  by rewrite String.eqb_refl in Hne.
Qed.

(** One turn of the loop that leads to a [return]: the test passed and
    a receive was made; it brought the awaited message, or something the
    loop passed over before it went on. *)
Lemma wait_loop_turn_returns fuel ident start_time timeout s d s' :
  wait_loop (S fuel) ident start_time timeout s = (Return d, s') →
  in_time start_time timeout (now (env s)) ∧
  ∃ h c t a rest,
    ws (self s) = Some h ∧ chans (env s) !! h = Some c ∧ is_open c = true ∧
    inbound c = (t, a) :: rest ∧
    ((∃ fields, a = message fields ∧ fields !! "id" = Some (JStr ident) ∧
                d = JObj fields ∧ received h c rest t s s')
     ∨
     (skipped ident a ∧
      ∃ s1, received h c rest t s s1 ∧
            wait_loop fuel ident start_time timeout s1 = (Return d, s'))).
Proof.
  cbn [wait_loop]. unfold ws_recv, dict_get. run.
  repeat (case_match; run; simplify_eq; try done).
  all: intros Hrun; split; [done|].
  all: eexists _, _, _, _, _; repeat (split; [done|]).
  all: match type of Hrun with
       | (Return _, _) = _ =>
           injection Hrun as <- <-; left; eexists;
           split; [done|]; split; [by apply eq_str_lookup|]; by split
       | _ =>
           right; split;
           [ first [ by left
                   | right; eexists; split; [done|]; by apply eq_str_false_lookup ]
           | eexists; split; [|exact Hrun]; by repeat split ]
       end.
Qed.

(** Whenever the loop returns a message, the inbound text of the
    client's socket began with entries the loop passes over, each
    received in time, followed by that message, which carries the
    awaited [id]; the rest is still inbound. *)
Lemma wait_loop_returned ident start_time timeout fuel :
  ∀ s d s',
  wait_loop fuel ident start_time timeout s = (Return d, s') →
  ∃ h c early t fields rest,
    ws (self s) = Some h ∧ chans (env s) !! h = Some c ∧ is_open c = true ∧
    inbound c = early ++ (t, message fields) :: rest ∧
    Forall (λ e, skipped ident e.2) early ∧
    Forall (in_time start_time timeout) (now (env s) :: early.*1) ∧
    fields !! "id" = Some (JStr ident) ∧
    d = JObj fields ∧
    received h c rest t s s'.
Proof.
  induction fuel as [|fuel IH]; intros s d s' Hrun; [done|].
  apply wait_loop_turn_returns in Hrun
    as (Htime & h & c & t & a & rest & Hws & Hch & Hop & Hin & Hcase).
  destruct Hcase as [(fields & -> & Hid & -> & Hrec)
                    |(Hskip & s1 & Hrec & Hrun)].
  { exists h, c, [], t, fields, rest. repeat split; try done.
    all: try apply Hrec. by repeat constructor. }
  destruct Hrec as (Hself & Hchans & Hnow & Hout & Hdial).
  apply IH in Hrun
    as (h1 & c1 & early & t1 & fields & rest1 & Hws1 & Hch1 & Hop1 & Hin1 &
        Hsk & Htm & Hid & -> & Hself1 & Hchans1 & Hnow1 & Hout1 & Hdial1).
  rewrite Hself, Hws in Hws1. injection Hws1 as <-.
  rewrite Hchans, list_lookup_insert_eq in Hch1 by (by eapply lookup_lt_Some).
  injection Hch1 as <-. cbn [inbound set_inbound] in Hin1. subst rest.
  exists h, c, ((t, a) :: early), t1, fields, rest1.
  repeat split; try done; try congruence.
  - by constructor.
  - constructor; [done|]. by rewrite Hnow in Htm.
  - rewrite Hchans1, Hchans. cbn. by rewrite list_insert_insert_eq.
Qed.

(** X6.  A message that [wait_for_response] returns is the first
    inbound message with the awaited [id]: before it the client's socket
    delivered only receive timeouts and JSON objects with another [id]
    or none, each while the test of the loop still passed; what came
    after it is still inbound. *)
Theorem wait_for_response_returns_first ident timeout s d s' :
  wait_for_response ident timeout s = (Return d, s') →
  ∃ h c early t fields rest,
    ws (self s) = Some h ∧ chans (env s) !! h = Some c ∧ is_open c = true ∧
    inbound c = early ++ (t, message fields) :: rest ∧
    Forall (λ e, skipped ident e.2) early ∧
    Forall (in_time (now (env s)) timeout) (now (env s) :: early.*1) ∧
    fields !! "id" = Some (JStr ident) ∧
    d = JObj fields ∧
    chans (env s') !! h = Some (set_inbound rest c).
Proof.
  rewrite wait_for_response_loop. intros Hrun.
  apply wait_loop_returned in Hrun
    as (h & c & early & t & fields & rest & Hws & Hch & Hop & Hin & Hsk & Htm &
        Hid & -> & Hself & Hchans & _).
  exists h, c, early, t, fields, rest. repeat split; try done.
  rewrite Hchans. apply list_lookup_insert_eq. by eapply lookup_lt_Some.
Qed.

(** X7.  Replies are consumed in the order of their arrival: when two
    calls of [wait_for_response] that follow each other both return, the
    message of the second arrived after the message of the first.  A
    reply passed over by the first call is lost to the second. *)
Theorem wait_for_response_in_order id1 id2 timeout1 timeout2 s d1 s1 d2 s2 :
  wait_for_response id1 timeout1 s = (Return d1, s1) →
  wait_for_response id2 timeout2 s1 = (Return d2, s2) →
  ∃ h c early1 t1 fields1 early2 t2 fields2 rest,
    ws (self s) = Some h ∧ chans (env s) !! h = Some c ∧
    inbound c =
      early1 ++ (t1, message fields1) :: early2 ++ (t2, message fields2) :: rest ∧
    d1 = JObj fields1 ∧ d2 = JObj fields2 ∧
    chans (env s2) !! h = Some (set_inbound rest c).
Proof.
  rewrite !wait_for_response_loop. intros Hrun1 Hrun2.
  apply wait_loop_returned in Hrun1
    as (h & c & early1 & t1 & fields1 & rest1 & Hws & Hch & Hop & Hin & _ & _ &
        _ & -> & Hself & Hchans & _).
  apply wait_loop_returned in Hrun2
    as (h2 & c2 & early2 & t2 & fields2 & rest & Hws2 & Hch2 & _ & Hin2 & _ & _ &
        _ & -> & Hself2 & Hchans2 & _).
  rewrite Hself, Hws in Hws2. injection Hws2 as <-.
  rewrite Hchans, list_lookup_insert_eq in Hch2 by (by eapply lookup_lt_Some).
  injection Hch2 as <-. cbn [inbound set_inbound] in Hin2. subst rest1.
  exists h, c, early1, t1, fields1, early2, t2, fields2, rest.
  repeat split; try done.
  rewrite Hchans2, Hchans, list_insert_insert_eq.
  apply list_lookup_insert_eq. by eapply lookup_lt_Some.
Qed.

(** ** The [debug] flag *)

Lemma agree_bind {A B} (m1 m2 : M A) (k1 k2 : A → M B) :
  agree m1 m2 → (∀ a, agree (k1 a) (k2 a)) → agree (bind m1 k1) (bind m2 k2).
Proof.
  intros Hm Hk s1 s2 Hs. destruct (Hm s1 s2 Hs) as [Ho Hs']. unfold bind.
  destruct (m1 s1) as [[a|e|] s1'], (m2 s2) as [[a'|e'|] s2'];
    cbn [fst snd] in *; simplify_eq; try done.
  by apply Hk.
Qed.

Lemma agree_get_self {B} (k1 k2 : NoodlesClient → M B) :
  (∀ c1 c2, same_config c1 c2 → agree (k1 c1) (k2 c2)) →
  agree (bind get_self k1) (bind get_self k2).
Proof. intros Hk s1 s2 Hs. run. apply Hk; [apply Hs|done]. Qed.

Lemma agree_try_except {A} (body1 body2 : M A) handler1 handler2 :
  agree body1 body2 →
  (∀ e, match handler1 e, handler2 e with
        | Some h1, Some h2 => agree h1 h2
        | None, None => True
        | _, _ => False
        end) →
  agree (try_except body1 handler1) (try_except body2 handler2).
Proof.
  intros Hb Hh s1 s2 Hs. destruct (Hb s1 s2 Hs) as [Ho Hs']. unfold try_except.
  destruct (body1 s1) as [[a|e|] s1'], (body2 s2) as [[a'|e'|] s2'];
    cbn [fst snd] in *; simplify_eq; try done.
  specialize (Hh e'). destruct (handler1 e'), (handler2 e'); try done.
  by apply Hh.
Qed.

Lemma agree_if {A} (b : bool) (m1 m2 m1' m2' : M A) :
  agree m1 m1' → agree m2 m2' →
  agree (if b then m1 else m2) (if b then m1' else m2').
Proof. by destruct b. Qed.

Lemma agree_ret {A} (a : A) : agree (ret a) (ret a).
Proof. by intros s1 s2 Hs. Qed.

Lemma agree_raise {A} e : agree (@raise A e) (raise e).
Proof. by intros s1 s2 Hs. Qed.

(** What is printed under [if self.debug:] is of no consequence. *)
Lemma agree_log (b1 b2 : bool) text1 text2 :
  agree (if b1 then print text1 else ret tt) (if b2 then print text2 else ret tt).
Proof. intros s1 s2 Hs. by destruct b1, b2. Qed.

Lemma agree_time_time : agree time_time time_time.
Proof. intros s1 s2 Hs. run. split; [|done]. f_equal. apply Hs. Qed.

Lemma agree_assign_ws v : agree (assign_ws v) (assign_ws v).
Proof.
  intros s1 s2 ((Hh & Hp & Hw & Hm) & Hn & Hch & Hd & Ho).
  unfold mute, same_config. run. by repeat split.
Qed.

Lemma agree_assign_message_id v :
  agree (assign_message_id v) (assign_message_id v).
Proof.
  intros s1 s2 ((Hh & Hp & Hw & Hm) & Hn & Hch & Hd & Ho).
  unfold mute, same_config. run. by repeat split.
Qed.

Lemma agree_json_loads text : agree (json_loads text) (json_loads text).
Proof. destruct text; [apply agree_ret|apply agree_raise]. Qed.

Lemma agree_dict_get d key : agree (dict_get d key) (dict_get d key).
Proof. destruct d; first [apply agree_ret|apply agree_raise]. Qed.

Lemma agree_subscript d key : agree (subscript d key) (subscript d key).
Proof.
  destruct d; cbn [subscript]; try apply agree_raise.
  case_match; [apply agree_ret|apply agree_raise].
Qed.

Lemma agree_create_connection url :
  agree (create_connection url) (create_connection url).
Proof.
  intros s1 s2 ((Hh & Hp & Hw & Hm) & Hn & Hch & Hd & Ho). unfold create_connection. run.
  rewrite Hd, Hch. unfold mute.
  destruct (dials (env s2)) as [|[|script] ds] eqn:Hds; run;
    repeat split; congruence.
Qed.

Lemma agree_ws_send text h : agree (ws_send text h) (ws_send text h).
Proof.
  intros s1 s2 ((Hh & Hp & Hw & Hm) & Hn & Hch & Hd & Ho). unfold ws_send. run.
  rewrite Hch, Ho. unfold mute.
  destruct (chans (env s2) !! h) as [c|]; [|done].
  destruct (is_open c); run; repeat split; congruence.
Qed.

Lemma agree_ws_recv h : agree (ws_recv h) (ws_recv h).
Proof.
  intros s1 s2 ((Hh & Hp & Hw & Hm) & Hn & Hch & Hd & Ho). unfold ws_recv. run.
  rewrite Hch. unfold mute.
  destruct (chans (env s2) !! h) as [c|]; [|done].
  destruct (is_open c); [|done].
  destruct (inbound c) as [|[t [text| |]] rest]; run; repeat split; congruence.
Qed.

Lemma agree_ws_close h : agree (ws_close h) (ws_close h).
Proof.
  intros s1 s2 ((Hh & Hp & Hw & Hm) & Hn & Hch & Hd & Ho). unfold ws_close. run.
  rewrite Hch. unfold mute.
  destruct (chans (env s2) !! h) as [c|]; run; repeat split; congruence.
Qed.

Lemma agree_on_ws {A} attr (call : nat → M A) :
  (∀ h, agree (call h) (call h)) → agree (on_ws attr call) (on_ws attr call).
Proof.
  intros Hcall. unfold on_ws. apply agree_get_self.
  intros c1 c2 (_ & _ & -> & _). destruct (ws c2); [apply Hcall|apply agree_raise].
Qed.

Lemma agree_send_message msg_type payload :
  agree (send_message msg_type payload) (send_message msg_type payload).
Proof.
  unfold send_message. apply agree_get_self. intros c1 c2 (_ & _ & _ & ->).
  apply agree_bind; [apply agree_assign_message_id|]. intros _.
  apply agree_get_self. intros c1' c2' (_ & _ & _ & ->).
  apply agree_bind; [apply agree_time_time|]. intros t1.
  apply agree_bind; [apply agree_time_time|]. intros t2.
  apply agree_bind; [apply agree_log|]. intros _.
  apply agree_bind; [|intros _; apply agree_ret].
  apply agree_on_ws. intros h. apply agree_ws_send.
Qed.

Lemma agree_connect : agree connect connect.
Proof.
  unfold connect. apply agree_get_self. intros c1 c2 (-> & -> & _ & _).
  apply agree_bind; [apply agree_log|]. intros _.
  apply agree_bind; [apply agree_create_connection|]. intros h.
  apply agree_bind; [apply agree_assign_ws|]. intros _.
  apply agree_bind; [apply agree_time_time|]. intros t.
  apply agree_bind; [apply agree_send_message|]. intros _.
  apply agree_get_self. intros c1' c2' _. apply agree_log.
Qed.

Lemma agree_disconnect : agree disconnect disconnect.
Proof.
  unfold disconnect. apply agree_get_self. intros c1 c2 (_ & _ & -> & _).
  destruct (ws c2) as [h|]; [|apply agree_ret].
  apply agree_bind; [apply agree_ws_close|]. intros _. apply agree_assign_ws.
Qed.

(** The one expression of the loop that is evaluated only when
    debugging, [data.get('type')], fails exactly when the
    [data.get("id")] that follows would. *)
Lemma agree_debug_segment {B} (b1 b2 : bool) data (f : json → string)
    (k1 k2 : json → M B) :
  (∀ v, agree (k1 v) (k2 v)) →
  agree
    ((if b1 then ty <- dict_get data "type" ;; print (f ty) else ret tt) ;;;
     v <- dict_get data "id" ;; k1 v)
    ((if b2 then ty <- dict_get data "type" ;; print (f ty) else ret tt) ;;;
     v <- dict_get data "id" ;; k2 v).
Proof.
  intros Hk s1 s2 Hs.
  destruct data; destruct b1, b2; unfold dict_get; run; try done.
  all: apply Hk; exact Hs.
Qed.

Lemma agree_wait_loop ident start_time timeout fuel :
  agree (wait_loop fuel ident start_time timeout)
        (wait_loop fuel ident start_time timeout).
Proof.
  induction fuel as [|fuel IH]; [by intros s1 s2 Hs|].
  cbn [wait_loop]. apply agree_bind; [apply agree_time_time|]. intros t.
  apply agree_if; [|apply agree_raise].
  apply agree_bind.
  - apply agree_try_except.
    + apply agree_bind; [apply agree_on_ws, agree_ws_recv|]. intros text.
      apply agree_bind; [apply agree_json_loads|]. intros data.
      apply agree_get_self. intros c1 c2 _.
      apply (agree_debug_segment (debug c1) (debug c2) data
        (λ ty, "Received: " +:+ py_str ty)).
      intros v. apply agree_if; apply agree_ret.
    + intros e. by destruct e.
  - intros [data|]; [apply agree_ret|apply IH].
Qed.

Lemma agree_wait_for_response ident timeout :
  agree (wait_for_response ident timeout) (wait_for_response ident timeout).
Proof.
  intros s1 s2 Hs. rewrite !wait_for_response_loop.
  destruct Hs as (Hc & Hn & Hch & Hd & Ho).
  assert (receives_left s1 = receives_left s2) as ->.
  { unfold receives_left. destruct Hc as (_ & _ & -> & _). by rewrite Hch. }
  rewrite Hn. by apply agree_wait_loop.
Qed.

Lemma agree_perform rq : agree (perform rq) (perform rq).
Proof.
  rewrite perform_unfold. unfold fail_with, take_result.
  apply agree_bind; [apply agree_send_message|]. intros msg_id.
  apply agree_bind; [apply agree_wait_for_response|]. intros response.
  apply agree_bind; [apply agree_subscript|]. intros ty.
  apply agree_if.
  - apply agree_bind; [apply agree_subscript|]. intros p.
    apply agree_bind; [apply agree_subscript|]. intros e.
    apply agree_bind; [apply agree_subscript|]. intros m.
    apply agree_raise.
  - apply agree_bind; [apply agree_subscript|]. intros p.
    apply agree_subscript.
Qed.

(** X21.  The [debug] flag changes nothing but the standard output,
    as long as what it makes the client print is plain text: the host,
    the type of a message to send, and the types of the JSON objects the
    socket is still to receive.  Run on two states that differ at most
    by this flag and by what was printed, every method of the client
    ends alike (the same value returned, the same exception raised, or
    no end) and leaves two states that still differ at most in this
    way. *)
Theorem debug_only_prints s1 s2 :
  mute s1 s2 → readable s1 →
  alike connect s1 s2 ∧
  alike disconnect s1 s2 ∧
  (∀ msg_type payload,
     plain msg_type = true → alike (send_message msg_type payload) s1 s2) ∧
  (∀ ident timeout, alike (wait_for_response ident timeout) s1 s2) ∧
  (∀ tool args, alike (call_tool tool args) s1 s2) ∧
  (∀ spec, alike (create_pipeline spec) s1 s2) ∧
  (∀ pipeline_id data, alike (test_pipeline pipeline_id data) s1 s2) ∧
  (∀ format quality, alike (capture_visualization format quality) s1 s2) ∧
  alike get_current_project s1 s2.
Proof.
  intros Hmute _.
  split; [by apply agree_connect|].
  split; [by apply agree_disconnect|].
  split; [intros msg_type payload _; by apply agree_send_message|].
  split; [intros ident timeout; by apply agree_wait_for_response|].
  split; [intros tool args; by apply (agree_perform (CallTool tool args))|].
  split; [intros spec; by apply (agree_perform (CreatePipeline spec))|].
  split; [intros pipeline_id data;
          by apply (agree_perform (TestPipeline pipeline_id data))|].
  split; [intros format quality; by apply (agree_perform (CallTool _ _))|].
  by apply (agree_perform (CallTool _ _)).
Qed.

(** ** [main] *)

Lemma emits_silent {A} (m : M A) :
  (∀ s, outbox (env (m s).2) = outbox (env s)) → emits [] m.
Proof.
  intros Hm s. exists []. rewrite Hm, app_nil_r. by repeat split.
Qed.

Lemma emits_bind {A B} (m : M A) (k : A → M B) types1 types2 types :
  emits types1 m → (∀ a, emits types2 (k a)) → types = types1 ++ types2 →
  emits types (bind m k).
Proof.
  intros Hm Hk -> s. destruct (Hm s) as (sent1 & Hout1 & Hpre1 & Hall1).
  unfold bind. destruct (m s) as [[a|e|] s1]; cbn [fst snd] in *.
  - destruct (Hk a s1) as (sent2 & Hout2 & Hpre2 & Hall2).
    exists (sent1 ++ sent2). rewrite Hout2, Hout1, <- app_assoc, fmap_app.
    rewrite Hall1 by by eexists. split; [done|]. split.
    + by apply prefix_app.
    + intros Hret. by rewrite Hall2.
  - exists sent1. split; [done|]. split; [by apply prefix_app_r|].
    by intros [? ?].
  - exists sent1. split; [done|]. split; [by apply prefix_app_r|].
    by intros [? ?].
Qed.

Lemma emits_if {A} (b : bool) (m1 m2 : M A) types :
  emits types m1 → emits types m2 → emits types (if b then m1 else m2).
Proof. by destruct b. Qed.

Lemma emits_ret {A} (a : A) : emits [] (ret a).
Proof. by apply emits_silent. Qed.

Lemma emits_raise {A} e : emits [] (@raise A e).
Proof. by apply emits_silent. Qed.

Lemma emits_get_self : emits [] get_self.
Proof. by apply emits_silent. Qed.

Lemma emits_time_time : emits [] time_time.
Proof. by apply emits_silent. Qed.

Lemma emits_print text : emits [] (print text).
Proof. by apply emits_silent. Qed.

Lemma emits_time_sleep secs : emits [] (time_sleep secs).
Proof. by apply emits_silent. Qed.

Lemma emits_assign_ws v : emits [] (assign_ws v).
Proof. by apply emits_silent. Qed.

Lemma emits_create_connection url : emits [] (create_connection url).
Proof.
  apply emits_silent. intros s. unfold create_connection. run.
  by repeat case_match.
Qed.

Lemma emits_subscript d key : emits [] (subscript d key).
Proof.
  destruct d; cbn [subscript]; try apply emits_raise.
  case_match; [apply emits_ret|apply emits_raise].
Qed.

Lemma emits_py_len v : emits [] (py_len v).
Proof. destruct v; first [apply emits_ret|apply emits_raise]. Qed.

Lemma emits_dict_get_or d key fallback : emits [] (dict_get_or d key fallback).
Proof. destruct d; first [apply emits_ret|apply emits_raise]. Qed.

Lemma emits_wait_for_response ident timeout :
  emits [] (wait_for_response ident timeout).
Proof. apply emits_silent. intros s. apply quiet_wait_for_response. Qed.

Lemma emits_send_message msg_type payload :
  emits [JStr msg_type] (send_message msg_type payload).
Proof.
  intros s.
  destruct (ws (self s)) as [h|] eqn:Hws;
    [destruct (chans (env s) !! h) as [c|] eqn:Hch;
       [destruct (is_open c) eqn:Hop|]|].
  - rewrite (send_message_connected s h c) by done.
    eexists [_]. unfold after_send. run. by repeat split.
  - exists []. destruct s as [[ho po de w mi] [n cs ds ob so]].
    cbn [self env ws chans] in *. subst w.
    unfold send_message, ws_send. destruct de; run.
    all: rewrite Hch; run; rewrite Hop; run; rewrite app_nil_r.
    all: split; [done|]; split; [apply prefix_nil|by intros [? ?]].
  - exists []. destruct s as [[ho po de w mi] [n cs ds ob so]].
    cbn [self env ws chans] in *. subst w.
    unfold send_message, ws_send. destruct de; run.
    all: rewrite Hch; run; rewrite app_nil_r.
    all: split; [done|]; split; [apply prefix_nil|by intros [? ?]].
  - exists []. rewrite send_message_no_socket by done. run.
    rewrite app_nil_r. split; [by destruct (debug (self s))|].
    split; [apply prefix_nil|by intros [? ?]].
Qed.

Create HintDb emits.
Hint Resolve emits_ret emits_raise emits_get_self emits_time_time emits_print
  emits_time_sleep emits_assign_ws emits_create_connection emits_subscript
  emits_py_len emits_dict_get_or emits_wait_for_response emits_send_message
  emits_if : emits.

Lemma emits_request_with msg_type payload prefix :
  emits [JStr msg_type] (request_with msg_type payload prefix).
Proof.
  unfold request_with.
  eapply emits_bind; [apply emits_send_message|intros msg_id|reflexivity].
  eapply emits_bind; [apply emits_wait_for_response|intros r|reflexivity].
  eapply emits_bind; [apply emits_subscript|intros ty|reflexivity].
  apply emits_if.
  - eapply emits_bind; [apply emits_subscript|intros p|reflexivity].
    eapply emits_bind; [apply emits_subscript|intros e|reflexivity].
    eapply emits_bind; [apply emits_subscript|intros m|reflexivity].
    apply emits_raise.
  - eapply emits_bind; [apply emits_subscript|intros p|reflexivity].
    apply emits_subscript.
Qed.

Lemma emits_connect : emits [JStr "connect"] connect.
Proof.
  unfold connect.
  eapply emits_bind; [apply emits_get_self|intros c|reflexivity].
  eapply emits_bind; [apply emits_if; auto with emits|intros _|reflexivity].
  eapply emits_bind; [apply emits_create_connection|intros h|reflexivity].
  eapply emits_bind; [apply emits_assign_ws|intros _|reflexivity].
  eapply emits_bind; [apply emits_time_time|intros t|reflexivity].
  eapply emits_bind; [apply emits_send_message|intros _|reflexivity].
  eapply emits_bind; [apply emits_get_self|intros c'|reflexivity].
  apply emits_if; auto with emits.
Qed.

Lemma emits_main_body : emits main_types main_body.
Proof.
  unfold main_body, main_types.
  eapply emits_bind; [apply emits_connect|intros _|reflexivity].
  eapply emits_bind; [apply emits_print|intros _|reflexivity].
  eapply emits_bind;
    [apply (emits_request_with "pipeline_create" _ "Pipeline creation failed: ")
    |intros pipeline|reflexivity].
  eapply emits_bind; [apply emits_subscript|intros pid|reflexivity].
  eapply emits_bind; [apply emits_print|intros _|reflexivity].
  eapply emits_bind; [apply emits_time_sleep|intros _|reflexivity].
  eapply emits_bind; [apply emits_print|intros _|reflexivity].
  eapply emits_bind;
    [apply (emits_request_with "tool_call" _ "Tool error: ")
    |intros screenshot|reflexivity].
  eapply emits_bind; [apply emits_dict_get_or|intros data|reflexivity].
  eapply emits_bind; [apply emits_py_len|intros n|reflexivity].
  eapply emits_bind; [apply emits_print|intros _|reflexivity].
  eapply emits_bind; [apply emits_print|intros _|reflexivity].
  eapply emits_bind;
    [apply (emits_request_with "tool_call" _ "Tool error: ")
    |intros project|reflexivity].
  eapply emits_bind; [apply emits_subscript|intros nodes|reflexivity].
  eapply emits_bind; [apply emits_py_len|intros n_nodes|reflexivity].
  eapply emits_bind; [apply emits_subscript|intros edges|reflexivity].
  eapply emits_bind; [apply emits_py_len|intros n_edges|reflexivity].
  eapply emits_bind; [apply emits_print|intros _|reflexivity].
  eapply emits_bind; [apply emits_print|intros _|reflexivity].
  eapply emits_bind; [apply emits_subscript|intros pid2|reflexivity].
  eapply emits_bind; [apply emits_request_with|intros test_result|reflexivity].
  eapply emits_bind; [apply emits_subscript|intros success|reflexivity].
  eapply emits_bind; [apply emits_print|intros _|reflexivity].
  apply emits_print.
Qed.

Lemma disconnect_outbox s : outbox (env (disconnect s).2) = outbox (env s).
Proof.
  destruct s as [[ho po de [h|] mi] w]; [|done].
  unfold disconnect, ws_close. run. by destruct (chans w !! h).
Qed.

Global Instance steady_preorder : PreOrder steady.
Proof.
  split.
  - by intros s.
  - intros s1 s2 s3 (Hw & Hl & Hc) (Hw' & Hl' & Hc').
    repeat split; try congruence.
    intros h Hh. rewrite Hc', Hc; [done..|]. by rewrite Hw.
Qed.

Lemma quiet_steady s s' : quiet s s' → steady s s'.
Proof. intros (Hs & _ & _ & Hl & Hc). repeat split; [by rewrite Hs|done..]. Qed.

Lemma steady_print text : stays steady (print text).
Proof. by intros s. Qed.

Lemma steady_time_sleep secs : stays steady (time_sleep secs).
Proof. by intros s. Qed.

Lemma steady_py_len v : stays steady (py_len v).
Proof. destruct v; first [apply stays_ret|apply stays_raise]; apply _. Qed.

Lemma steady_dict_get_or d key fallback : stays steady (dict_get_or d key fallback).
Proof. destruct d; first [apply stays_ret|apply stays_raise]; apply _. Qed.

Lemma steady_wait_for_response ident timeout :
  stays steady (wait_for_response ident timeout).
Proof. intros s. apply quiet_steady, quiet_wait_for_response. Qed.

Lemma steady_send_message msg_type payload :
  stays steady (send_message msg_type payload).
Proof.
  intros s. destruct (send_message_cases msg_type payload s) as (_ & Hws & Hch & _).
  repeat split; [done|by rewrite Hch|]. intros h _. by rewrite Hch.
Qed.

Hint Resolve steady_preorder steady_print steady_time_sleep steady_py_len
  steady_dict_get_or steady_wait_for_response steady_send_message : stays.

(** A sequence of statements respects [steady] when each does. *)
Ltac steady_steps :=
  repeat first
    [ apply stays_bind; try apply _; [solve [auto with stays]|intros ?]
    | apply stays_if; try apply _
    | solve [auto with stays] ].

Lemma steady_request_with msg_type payload prefix :
  stays steady (request_with msg_type payload prefix).
Proof. unfold request_with. steady_steps. Qed.

Lemma owns_steady old s s' : owns old s → steady s s' → owns old s'.
Proof.
  intros [Htake Hcase] (Hws & Hlen & Hch). split.
  - transitivity (take (length old) (chans (env s))); [|done].
    apply list_eq. intros i.
    destruct (decide (i < length old)) as [Hlt|Hge].
    + rewrite !lookup_take_lt by done. apply Hch.
      destruct Hcase as [[-> _]|[-> _]]; [done|]. intros [= Heq]. lia.
    + rewrite !lookup_take_ge by lia. done.
  - rewrite Hws, Hlen. exact Hcase.
Qed.

Lemma owns_connect s :
  ws (self s) = None → owns (chans (env s)) (connect s).2.
Proof.
  intros Hws. destruct (dials (env s)) as [|[|script] ds] eqn:Hdial.
  1,2: destruct (connect_fails s) as (s' & -> & Hself & Hch & _);
    [by rewrite Hdial|].
  1,2: cbn [snd]; split; [by rewrite Hch, take_ge|left; by rewrite Hself, Hch].
  rewrite (connect_accepted s script ds) by done.
  destruct s as [[ho po de w mi] e]. cbn [self ws] in Hws. subst w.
  unfold after_connect, after_send, log, owns.
  destruct de; run.
  all: split; [by rewrite take_app_length|].
  all: right; split; [done|]; rewrite length_app; cbn; lia.
Qed.

Lemma owns_main_body s :
  ws (self s) = None → owns (chans (env s)) (main_body s).2.
Proof.
  intros Hws. pose proof (owns_connect s Hws) as Hown.
  unfold main_body. unfold bind at 1.
  destruct (connect s) as [[[]|e|] s1]; cbn [snd] in *; [|done..].
  eapply owns_steady; [exact Hown|].
  match goal with
  | |- steady s1 (?m s1).2 => cut (stays steady m); [intros Hm; exact (Hm s1)|]
  end.
  clear.
  pose proof (stays_subscript steady) as Hsub.
  apply (stays_bind steady); [apply steady_print|intros _].
  apply (stays_bind steady);
    [apply (steady_request_with "pipeline_create" _ "Pipeline creation failed: ")
    |intros pipeline].
  apply (stays_bind steady); [apply Hsub|intros pid].
  apply (stays_bind steady); [apply steady_print|intros _].
  apply (stays_bind steady); [apply steady_time_sleep|intros _].
  apply (stays_bind steady); [apply steady_print|intros _].
  apply (stays_bind steady);
    [apply (steady_request_with "tool_call" _ "Tool error: ")|intros screenshot].
  apply (stays_bind steady); [apply steady_dict_get_or|intros data].
  apply (stays_bind steady); [apply steady_py_len|intros n].
  apply (stays_bind steady); [apply steady_print|intros _].
  apply (stays_bind steady); [apply steady_print|intros _].
  apply (stays_bind steady);
    [apply (steady_request_with "tool_call" _ "Tool error: ")|intros project].
  apply (stays_bind steady); [apply Hsub|intros nodes].
  apply (stays_bind steady); [apply steady_py_len|intros n_nodes].
  apply (stays_bind steady); [apply Hsub|intros edges].
  apply (stays_bind steady); [apply steady_py_len|intros n_edges].
  apply (stays_bind steady); [apply steady_print|intros _].
  apply (stays_bind steady); [apply steady_print|intros _].
  apply (stays_bind steady); [apply Hsub|intros pid2].
  apply (stays_bind steady); [apply steady_request_with|intros test_result].
  apply (stays_bind steady); [apply Hsub|intros success].
  apply (stays_bind steady); [apply steady_print|intros _].
  apply steady_print.
Qed.

(** X18.  When [main] returns, the client holds no socket, the socket
    [main] opened, if it opened one, is closed, and the sockets that
    existed before are as they were: the [finally] block releases the
    connection on every path, failures included. *)
Theorem main_releases s s' :
  main s = (Return tt, s') →
  ws (self s') = None ∧
  take (length (chans (env s))) (chans (env s')) = chans (env s) ∧
  ∀ h c, length (chans (env s)) ≤ h → chans (env s') !! h = Some c →
         is_open c = false.
Proof.
  set (old := chans (env s)).
  pose proof (owns_main_body
    {| self := __init__ "localhost" 8765 true; env := env s |} eq_refl) as Hown.
  cbn [env] in Hown. fold old in Hown.
  unfold main, new_client, try_finally, try_except. run.
  destruct (main_body _) as [[[]|e|] s1]; cbn [fst snd] in *; run; [| |done].
  all: match goal with
       | |- context [disconnect ?s2] =>
           assert (owns old s2) as Hown2
             by (eapply owns_steady; [exact Hown|by repeat split]);
           clear Hown; revert Hown2; generalize s2
       end.
  all: intros s2 [Htake Hcase]; unfold disconnect, ws_close; run.
  all: destruct Hcase as [[Hws Hlen]|[Hws Hlen]]; rewrite Hws; run.
  all: try (intros [= <-]; repeat split; try done; intros h c Hh Hc;
            apply lookup_lt_Some in Hc; lia).
  all: destruct (chans (env s2) !! length old) as [c0|] eqn:Hc0;
    [|apply lookup_ge_None in Hc0; lia].
  all: intros [= <-]; run; split; [done|]; split.
  all: try (rewrite take_insert_ge by lia; done).
  all: intros h c Hh Hc; pose proof (lookup_lt_Some _ _ _ Hc) as Hlt.
  all: rewrite length_insert in Hlt; assert (h = length old) as -> by lia.
  all: rewrite list_lookup_insert_eq in Hc by lia; by injection Hc as <-.
Qed.

Lemma request_with_answered msg_type payload prefix s h c rest0 t0 n t reply ty
    p result rest :
  poised h c rest0 t0 n s →
  rest0 = (t, message reply) :: rest →
  reply !! "id" = Some (JStr (make_id (n + 1) t0)) →
  reply !! "type" = Some ty → eq_str ty "tool_error" = false →
  reply !! "payload" = Some (JObj p) →
  p !! "result" = Some result →
  ∃ s', request_with msg_type payload prefix s = (Return result, s') ∧
        poised h c rest t (n + 1) s'.
Proof.
  intros (Hws & Hch & Hop & Hnow & Hmid) -> Hid Hty Hne Hpay Hres.
  pose proof (lookup_lt_Some _ _ _ Hch) as Hlt.
  pose proof (send_message_connected s h _ msg_type payload Hws Hch Hop) as Hsend.
  rewrite Hmid, Hnow in Hsend.
  destruct (wait_for_response_next (after_send h msg_type payload s)
    h (set_inbound ((t, message reply) :: rest) c) (make_id (n + 1) t0)
    default_timeout t reply rest)
    as (s2 & Hwait & Hself & Hchans & Hnow2 & _); try done.
  { unfold after_send. run. by rewrite log_chans. }
  exists s2. split.
  - unfold request_with.
    rewrite (bind_Return _ _ _ _ _ Hsend), (bind_Return _ _ _ _ _ Hwait).
    unfold subscript. run. rewrite Hty. run. rewrite Hne, Hpay. run.
    by rewrite Hres.
  - split; [by rewrite Hself|]. split.
    + rewrite Hchans. unfold after_send. run. rewrite log_chans.
      by rewrite list_lookup_insert_eq.
    + repeat split; try done. rewrite Hself. unfold after_send. run.
      by rewrite Hmid.
Qed.

Lemma poised_print h c rest t n text s :
  poised h c rest t n s → poised h c rest t n (print text s).2.
Proof. by intros ?. Qed.

Lemma disconnect_stdout s : stdout (env (disconnect s).2) = stdout (env s).
Proof.
  destruct s as [[ho po de [h|] mi] w]; [|done].
  unfold disconnect, ws_close. run. by destruct (chans w !! h).
Qed.

Lemma bind_print {B} text (k : M B) s : (print text ;;; k) s = k (print text s).2.
Proof. reflexivity. Qed.

Lemma bind_time_sleep {B} secs (k : M B) s :
  (time_sleep secs ;;; k) s = k (time_sleep secs s).2.
Proof. reflexivity. Qed.

Lemma bind_ret {A B} (a : A) (k : A → M B) s : (x <- ret a ;; k x) s = k a s.
Proof. reflexivity. Qed.

Lemma poised_sleep h c rest t n secs s :
  poised h c rest t n s → poised h c rest (t + secs) n (time_sleep secs s).2.
Proof.
  intros (? & ? & ? & Hnow & ?). repeat split; try done.
  unfold time_sleep. run. by rewrite Hnow.
Qed.

Lemma subscript_found fields key v s :
  fields !! key = Some v → subscript (JObj fields) key s = (Return v, s).
Proof. intros Hv. unfold subscript. by rewrite Hv. Qed.

Lemma dict_get_or_found fields key fallback v s :
  fields !! key = Some v →
  dict_get_or (JObj fields) key fallback s = (Return v, s).
Proof. intros Hv. unfold dict_get_or. by rewrite Hv. Qed.

Lemma poised_after_connect script ds s :
  message_id (self s) = 0%Z →
  poised (length (chans (env s)))
    {| peer := url_of (self s); is_open := true; inbound := script |}
    script (now (env s)) 1 (after_connect script ds s).
Proof.
  intros Hmid. destruct s as [[ho po de w mi] [n cs ds' ob so]].
  cbn [self message_id] in Hmid. subst mi.
  unfold poised, after_connect, after_send.
  destruct de; unfold log; run.
  all: repeat split; try done.
  all: apply lookup_new_socket.
Qed.

(** The [try] block of [main] with a server that answers each request
    in turn. *)
Lemma main_body_completes s script ds more t1 r1 ty1 p1 fields1 pid t2 r2 ty2 p2
    fields2 data t3 r3 ty3 p3 fields3 nodes edges t4 r4 ty4 p4 fields4 success :
  message_id (self s) = 0%Z →
  dials (env s) = Accepted script :: ds →
  script = [(t1, message r1); (t2, message r2); (t3, message r3);
            (t4, message r4)] ++ more →
  r1 !! "id" = Some (JStr (make_id 2 (now (env s)))) →
  r1 !! "type" = Some ty1 → eq_str ty1 "tool_error" = false →
  r1 !! "payload" = Some (JObj p1) → p1 !! "result" = Some (JObj fields1) →
  fields1 !! "pipelineId" = Some pid →
  r2 !! "id" = Some (JStr (make_id 3 (t1 + 2))) →
  r2 !! "type" = Some ty2 → eq_str ty2 "tool_error" = false →
  r2 !! "payload" = Some (JObj p2) → p2 !! "result" = Some (JObj fields2) →
  fields2 !! "data" = Some (JStr data) →
  r3 !! "id" = Some (JStr (make_id 4 t2)) →
  r3 !! "type" = Some ty3 → eq_str ty3 "tool_error" = false →
  r3 !! "payload" = Some (JObj p3) → p3 !! "result" = Some (JObj fields3) →
  fields3 !! "nodes" = Some (JArr nodes) → fields3 !! "edges" = Some (JArr edges) →
  r4 !! "id" = Some (JStr (make_id 5 t3)) →
  r4 !! "type" = Some ty4 → eq_str ty4 "tool_error" = false →
  r4 !! "payload" = Some (JObj p4) → p4 !! "result" = Some (JObj fields4) →
  fields4 !! "success" = Some success →
  ∃ s' before,
    main_body s = (Return tt, s') ∧
    stdout (env s') = before ++
      ["Test result: " +:+ (if truthy success then "Success" else "Failed");
       nl +:+ "Pipeline creation complete!"].
Proof.
  intros Hmid Hdial -> Hid1 Hty1 Hne1 Hpay1 Hres1 Hpid Hid2 Hty2 Hne2 Hpay2 Hres2
    Hdata Hid3 Hty3 Hne3 Hpay3 Hres3 Hnodes Hedges Hid4 Hty4 Hne4 Hpay4 Hres4 Hsucc.
  pose proof (connect_accepted s _ ds Hdial) as Hconnect.
  pose proof (poised_after_connect
    ([(t1, message r1); (t2, message r2); (t3, message r3); (t4, message r4)]
       ++ more) ds s Hmid) as Hp.
  apply (poised_print _ _ _ _ _ (nl +:+ "Creating data pipeline...")) in Hp.
  destruct (request_with_answered "pipeline_create"
    (dict [("spec", pipeline_spec);
           ("options", dict [("validateFirst", JBool true);
                             ("autoConnect", JBool true)])])
    "Pipeline creation failed: " _ _ _ _ _ _ t1 r1 ty1 p1 (JObj fields1) _
    Hp eq_refl Hid1 Hty1 Hne1 Hpay1 Hres1) as (s1 & Hrun1 & Hp1).
  apply (poised_print _ _ _ _ _ ("Pipeline created: " +:+ py_str pid)) in Hp1.
  apply (poised_sleep _ _ _ _ _ 2) in Hp1.
  apply (poised_print _ _ _ _ _ (nl +:+ "Capturing visualization...")) in Hp1.
  destruct (request_with_answered "tool_call"
    (dict [("tool", JStr "captureVisualization");
           ("args", dict [("format", JStr "png"); ("quality", JFloat (9 # 10))])])
    "Tool error: " _ _ _ _ _ _ t2 r2 ty2 p2 (JObj fields2) _
    Hp1 eq_refl Hid2 Hty2 Hne2 Hpay2 Hres2) as (s2 & Hrun2 & Hp2).
  apply (poised_print _ _ _ _ _
    ("Screenshot captured: " +:+ pretty (Z.of_nat (String.length data)) +:+
     " bytes")) in Hp2.
  apply (poised_print _ _ _ _ _ (nl +:+ "Getting project state...")) in Hp2.
  destruct (request_with_answered "tool_call"
    (dict [("tool", JStr "getCurrentProject"); ("args", dict [])])
    "Tool error: " _ _ _ _ _ _ t3 r3 ty3 p3 (JObj fields3) _
    Hp2 eq_refl Hid3 Hty3 Hne3 Hpay3 Hres3) as (s3 & Hrun3 & Hp3).
  apply (poised_print _ _ _ _ _
    ("Project has " +:+ pretty (Z.of_nat (length nodes)) +:+ " nodes and " +:+
     pretty (Z.of_nat (length edges)) +:+ " edges")) in Hp3.
  apply (poised_print _ _ _ _ _ (nl +:+ "Testing pipeline with sample data..."))
    in Hp3.
  destruct (request_with_answered "pipeline_test"
    (dict [("pipelineId", pid); ("testData", JArr test_data);
           ("options", dict [("timeout", JInt 30000);
                             ("captureIntermediateResults", JBool true)])])
    "Pipeline test failed: " _ _ _ _ _ _ t4 r4 ty4 p4 (JObj fields4) _
    Hp3 eq_refl Hid4 Hty4 Hne4 Hpay4 Hres4) as (s4 & Hrun4 & Hp4).
  eexists _, _. split.
  - unfold main_body.
    rewrite (bind_Return _ _ _ _ _ Hconnect), bind_print.
    rewrite (bind_Return _ _ _ _ _ Hrun1).
    rewrite (bind_Return _ _ _ _ _ (subscript_found _ _ _ _ Hpid)).
    rewrite bind_print, bind_time_sleep, bind_print.
    rewrite (bind_Return _ _ _ _ _ Hrun2).
    rewrite (bind_Return _ _ _ _ _ (dict_get_or_found _ _ _ _ _ Hdata)).
    cbn [py_len]. rewrite bind_ret, !bind_print.
    rewrite (bind_Return _ _ _ _ _ Hrun3).
    rewrite (bind_Return _ _ _ _ _ (subscript_found _ _ _ _ Hnodes)).
    cbn [py_len]. rewrite bind_ret.
    rewrite (bind_Return _ _ _ _ _ (subscript_found _ _ _ _ Hedges)).
    cbn [py_len]. rewrite bind_ret, !bind_print.
    rewrite (bind_Return _ _ _ _ _ (subscript_found _ _ _ _ Hpid)).
    rewrite (bind_Return _ _ _ _ _ Hrun4).
    rewrite (bind_Return _ _ _ _ _ (subscript_found _ _ _ _ Hsucc)).
    rewrite bind_print. reflexivity.
  - run. by rewrite <- app_assoc.
Qed.

(** X22.  The connection is accepted, and the server sends four
    replies and nothing before them: to the second message of the
    client, with a [result] that holds a [pipelineId]; to the third, sent
    two seconds after the first reply, with a [result] whose [data] is a
    string; to the fourth, with a [result] whose [nodes] and [edges] are
    arrays; and to the fifth, with a [result] that holds [success]; none
    of them has the type ["tool_error"], and their types and the
    [pipelineId], which [main] prints, are plain text as printed.  Then
    [main] returns, having
    transmitted its five messages, the handshake and the four requests;
    the last lines it prints are the result of the test, ["Success"] or
    ["Failed"] as [success] is true or not, the completion and the
    farewell; and the client holds no socket at the end. *)
Theorem main_completes s script ds more t1 r1 ty1 p1 fields1 pid t2 r2 ty2 p2
    fields2 data t3 r3 ty3 p3 fields3 nodes edges t4 r4 ty4 p4 fields4 success :
  dials (env s) = Accepted script :: ds →
  script = [(t1, message r1); (t2, message r2); (t3, message r3);
            (t4, message r4)] ++ more →
  r1 !! "id" = Some (JStr (make_id 2 (now (env s)))) →
  r1 !! "type" = Some ty1 → eq_str ty1 "tool_error" = false →
  r1 !! "payload" = Some (JObj p1) → p1 !! "result" = Some (JObj fields1) →
  fields1 !! "pipelineId" = Some pid →
  r2 !! "id" = Some (JStr (make_id 3 (t1 + 2))) →
  r2 !! "type" = Some ty2 → eq_str ty2 "tool_error" = false →
  r2 !! "payload" = Some (JObj p2) → p2 !! "result" = Some (JObj fields2) →
  fields2 !! "data" = Some (JStr data) →
  r3 !! "id" = Some (JStr (make_id 4 t2)) →
  r3 !! "type" = Some ty3 → eq_str ty3 "tool_error" = false →
  r3 !! "payload" = Some (JObj p3) → p3 !! "result" = Some (JObj fields3) →
  fields3 !! "nodes" = Some (JArr nodes) → fields3 !! "edges" = Some (JArr edges) →
  r4 !! "id" = Some (JStr (make_id 5 t3)) →
  r4 !! "type" = Some ty4 → eq_str ty4 "tool_error" = false →
  r4 !! "payload" = Some (JObj p4) → p4 !! "result" = Some (JObj fields4) →
  fields4 !! "success" = Some success →
  plain (py_str ty1) = true → plain (py_str ty2) = true →
  plain (py_str ty3) = true → plain (py_str ty4) = true →
  plain (py_str pid) = true →
  ∃ s' sent before,
    main s = (Return tt, s') ∧
    ws (self s') = None ∧
    outbox (env s') = outbox (env s) ++ sent ∧
    frame_type <$> sent =
      [JStr "connect"; JStr "pipeline_create"; JStr "tool_call";
       JStr "tool_call"; JStr "pipeline_test"] ∧
    stdout (env s') = before ++
      ["Test result: " +:+ (if truthy success then "Success" else "Failed");
       nl +:+ "Pipeline creation complete!";
       nl +:+ "Disconnecting..."].
Proof.
  intros Hdial Hscript Hid1 Hty1 Hne1 Hpay1 Hres1 Hpid Hid2 Hty2 Hne2 Hpay2 Hres2
    Hdata Hid3 Hty3 Hne3 Hpay3 Hres3 Hnodes Hedges Hid4 Hty4 Hne4 Hpay4 Hres4 Hsucc
    _ _ _ _ _.
  destruct (main_body_completes
    {| self := __init__ "localhost" 8765 true; env := env s |}
    script ds more t1 r1 ty1 p1 fields1 pid t2 r2 ty2 p2 fields2 data
    t3 r3 ty3 p3 fields3 nodes edges t4 r4 ty4 p4 fields4 success)
    as (s1 & before & Hbody & Hprinted); try done.
  destruct (emits_main_body
    {| self := __init__ "localhost" 8765 true; env := env s |})
    as (sent & Hout & _ & Hall).
  rewrite Hbody in Hout, Hall. cbn [fst snd env] in Hout, Hall.
  set (s2 := {| self := self s1;
                env := set_stdout (stdout (env s1) ++ [nl +:+ "Disconnecting..."])
                         (env s1) |}).
  assert (main s = (Return tt, (disconnect s2).2)) as Hmain.
  { unfold main, new_client, try_finally, try_except. run. rewrite Hbody. run.
    fold s2. pose proof (disconnect_returns s2) as Hret.
    destruct (disconnect s2) as [o s3]. cbn [fst snd] in *. by subst o. }
  exists (disconnect s2).2, sent, before. split; [exact Hmain|].
  split; [apply disconnect_forgets|].
  split; [by rewrite disconnect_outbox|].
  split; [apply Hall; by exists tt|].
  rewrite disconnect_stdout. unfold s2. run. rewrite Hprinted.
  by rewrite <- app_assoc.
Qed.

(** X19.  When the connection cannot be made, [main] prints the error
    and the farewell, transmits nothing, opens nothing, and returns. *)
Theorem main_connection_refused s :
  (∀ script ds, dials (env s) ≠ Accepted script :: ds) →
  ∃ s', main s = (Return tt, s') ∧
        outbox (env s') = outbox (env s) ∧
        chans (env s') = chans (env s) ∧
        ws (self s') = None ∧
        stdout (env s') = stdout (env s) ++
          ["Connecting to ws://localhost:8765";
           "Error: " +:+ exn_text ConnectionRefusedError;
           nl +:+ "Disconnecting..."].
Proof.
  intros Hrefused. destruct s as [c [n cs ds ob so]]. cbn [env dials] in *.
  unfold main, new_client, try_finally, try_except, main_body, connect,
    create_connection, disconnect, __init__.
  destruct ds as [|[|script] ds]; [| |by destruct (Hrefused script ds)].
  all: run; eexists; split; [reflexivity|]; run.
  all: repeat split; try done.
  all: by rewrite <- !app_assoc.
Qed.

(** X17.  The messages [main] transmits are, in this order, a
    handshake of type ["connect"], a ["pipeline_create"], two
    ["tool_call"] and a ["pipeline_test"], or the first of these when it
    ends early: at most five messages, never one out of turn, never one
    twice. *)
Theorem main_transmits s :
  ∃ sent,
    outbox (env (main s).2) = outbox (env s) ++ sent ∧
    frame_type <$> sent `prefix_of`
      [JStr "connect"; JStr "pipeline_create"; JStr "tool_call";
       JStr "tool_call"; JStr "pipeline_test"].
Proof.
  destruct (emits_main_body
    {| self := __init__ "localhost" 8765 true; env := env s |})
    as (sent & Hout & Hpre & _).
  exists sent. split; [|exact Hpre]. cbn [env] in Hout.
  unfold main, new_client, try_finally, try_except. run.
  destruct (main_body _) as [[[]|e|] s1]; cbn [fst snd] in *; run.
  - destruct (disconnect _) as [[[]|e|] s2] eqn:Hd; cbn [snd].
    all: apply (f_equal (λ r, outbox (env r.2))) in Hd; cbn [snd] in Hd.
    all: rewrite disconnect_outbox in Hd; run_in_hyp Hd; congruence.
  - destruct (disconnect _) as [[[]|e'|] s2] eqn:Hd; cbn [snd].
    all: apply (f_equal (λ r, outbox (env r.2))) in Hd; cbn [snd] in Hd.
    all: rewrite disconnect_outbox in Hd; run_in_hyp Hd; congruence.
  - done.
Qed.

End coverage.

(** * The statements at the examples *)

#[local] Existing Instance sample_format.



Lemma error_reply_recognition_witness :
  ∃ e s2,
    perform (CreatePipeline (dict []))
      (sample_state
         [(1%Q, message (reply_to first_id "tool_error"
                   (dict [("error", dict [("message", JStr "no such op")])])))] [])
    = (Raise e, s2).
Proof.
  edestruct (error_reply_recognition (CreatePipeline (dict []))
    (sample_state
       [(1%Q, message (reply_to first_id "tool_error"
                 (dict [("error", dict [("message", JStr "no such op")])])))] []))
    as [Herr _].
  - vm_compute. reflexivity.
  - vm_compute. reflexivity.
  - vm_compute. reflexivity.
  - destruct (Herr eq_refl) as [e He]. eexists _, _. exact He.
Defined.

(** C2 as stated fails: a reply of type ["pipeline_error"] has the
    suffix, yet [create_pipeline] does not take it for an error: it
    returns the [result] of the payload when there is one, and fails on
    the missing key when there is none, the message of the error
    unread. *)
Lemma suffix_error_not_recognized :
  spec_error_type "pipeline_error" ∧
  (create_pipeline (dict [])
     (sample_state
        [(1%Q, message (reply_to first_id "pipeline_error"
                  (dict [("result", JStr "made")])))] [])).1
  = Return (JStr "made") ∧
  (create_pipeline (dict [])
     (sample_state
        [(1%Q, message (reply_to first_id "pipeline_error"
                  (dict [("error", dict [("message", JStr "bad spec")])])))] [])).1
  = Raise (KeyError "result").
Proof.
  split; [|split].
  - right. by exists "pipeline".
  - vm_compute. reflexivity.
  - vm_compute. reflexivity.
Qed.

(** C3 as stated fails: a reply of type ["pipeline_error"] is of error
    type and its payload is [{error: {message: "boom"}}], yet [call_tool]
    raises [KeyError] on the key [result]: the message of the error is
    not read, and the exception does not hold it. *)
Lemma suffix_error_message_lost :
  spec_error_type "pipeline_error" ∧
  (call_tool "getCurrentProject" (dict [])
     (sample_state
        [(1%Q, message (reply_to first_id "pipeline_error"
                  (dict [("error", dict [("message", JStr "boom")])])))] [])).1
  = Raise (KeyError "result") ∧
  ¬ contains "boom" "result".
Proof.
  split; [|split].
  - right. by exists "pipeline".
  - vm_compute. reflexivity.
  - intros (before & after & Hsplit).
    repeat (destruct before as [|? before];
            [discriminate Hsplit|injection Hsplit as _ Hsplit]).
    destruct before; discriminate Hsplit.
Qed.

Lemma call_tool_unwraps_error_witness :
  ∃ msg s2,
    call_tool "getCurrentProject" (dict [])
      (sample_state
         [(1%Q, message (reply_to first_id "tool_error"
                   (dict [("error", dict [("message", JStr "no such op")])])))] [])
    = (Raise (Exception_ msg), s2) ∧
    contains "no such op" msg.
Proof.
  edestruct (call_tool_unwraps_error "getCurrentProject" (dict [])
    (sample_state
       [(1%Q, message (reply_to first_id "tool_error"
                 (dict [("error", dict [("message", JStr "no such op")])])))] []))
    as (msg & Hrun & _ & Hin).
  - vm_compute. reflexivity.
  - vm_compute. reflexivity.
  - vm_compute. reflexivity.
  - vm_compute. reflexivity.
  - vm_compute. reflexivity.
  - vm_compute. reflexivity.
  - eexists _, _. split; [exact Hrun|exact Hin].
Defined.

Lemma wait_for_response_times_out_witness :
  ∃ s', wait_for_response first_id 30
          (sample_state
             ((prod_map id message <$> slow_decoys) ++ [(32%Q, message bare_reply)]) [])
        = (Raise (TimeoutError ("No response received for message " +:+ first_id)), s').
Proof.
  destruct (wait_for_response_times_out
    (sample_state
       ((prod_map id message <$> slow_decoys) ++ [(32%Q, message bare_reply)]) [])
    0 (sample_channel
       ((prod_map id message <$> slow_decoys) ++ [(32%Q, message bare_reply)]))
    first_id 30 (prod_map id message <$> slow_decoys) [(32%Q, message bare_reply)])
    as (s' & Hrun & _).
  - reflexivity.
  - reflexivity.
  - reflexivity.
  - reflexivity.
  - constructor; [|constructor]. right. eexists. split; [reflexivity|].
    vm_compute. discriminate.
  - repeat constructor; vm_compute; reflexivity.
  - unfold in_time. vm_compute. discriminate.
  - exists s'. exact Hrun.
Defined.

(** C4.  The code at the failing input.  The client holds an open
    socket whose peer sends nothing, and waits with the window of 30
    seconds: [wait_for_response] neither returns nor raises, since the
    [recv] of a socket opened without a timeout never ends and the clock
    is read only between two receives.  By the same slip, when the only
    message with the awaited [id] arrives 100 seconds after the start,
    the [recv] that was waiting hands it over and it is returned.  There
    is no [TimeoutError] in either case. *)
Theorem wait_for_response_misses_deadline :
  wait_for_response first_id 30 (sample_state [] []) = (Hang, sample_state [] []) ∧
  ¬ in_time 0 30 100 ∧
  (wait_for_response first_id 30
     (sample_state [(100%Q, message bare_reply)] [])).1
  = Return (JObj bare_reply).
Proof.
  split; [|split].
  - vm_compute. reflexivity.
  - unfold in_time. vm_compute. discriminate.
  - vm_compute. reflexivity.
Qed.

Lemma get_current_project_scenario_witness :
  ∃ s', get_current_project
          (sample_state
             [(1%Q, message (reply_to first_id "tool_result"
                       (dict [("result", empty_project)])))] [])
        = (Return empty_project, s').
Proof.
  destruct (get_current_project_scenario
    (sample_state
       [(1%Q, message (reply_to first_id "tool_result"
                 (dict [("result", empty_project)])))] [])
    0 (sample_channel
       [(1%Q, message (reply_to first_id "tool_result"
                 (dict [("result", empty_project)])))])
    1%Q (reply_to first_id "tool_result" (dict [("result", empty_project)])) [])
    as (s' & Hrun & _).
  - reflexivity.
  - reflexivity.
  - reflexivity.
  - reflexivity.
  - vm_compute. reflexivity.
  - vm_compute. reflexivity.
  - vm_compute. reflexivity.
  - exists s'. exact Hrun.
Defined.


Lemma send_message_transmits_witness :
  ∃ ident s', send_message "tool_call" (dict []) (sample_state [] [])
              = (Return ident, s').
Proof.
  destruct (send_message_transmits (sample_state [] []) 0 (sample_channel [])
    "tool_call" (dict [])) as (ident & ms & fields & s' & Hrun & _).
  - reflexivity.
  - reflexivity.
  - reflexivity.
  - exists ident, s'. exact Hrun.
Defined.

Lemma connect_again_leaks_socket_witness :
  ∃ s' s'',
    connect (sample_state [] [Accepted []]) = (Return tt, s') ∧
    disconnect s' = (Return tt, s'') ∧
    chans (env s'') !! 0 = Some (sample_channel []).
Proof.
  destruct (connect_again_leaks_socket (sample_state [] [Accepted []]) 0
    (sample_channel []) [] [])
    as (h' & s' & fields & s'' & Hc & _ & _ & _ & _ & _ & _ & Hd & _ & Hold & _).
  - reflexivity.
  - reflexivity.
  - reflexivity.
  - reflexivity.
  - exists s', s''. split; [exact Hc|]. split; [exact Hd|exact Hold].
Defined.

Lemma wait_for_response_needs_id_witness :
  ∃ s', wait_for_response first_id 30
          (sample_state
             [(1%Q, message {["type" := JStr "push"]}); (2%Q, message bare_reply)] [])
        = wait_loop 2 first_id 0 30 s'.
Proof.
  destruct (wait_for_response_needs_id
    (sample_state
       [(1%Q, message {["type" := JStr "push"]}); (2%Q, message bare_reply)] [])
    first_id 30) as (_ & _ & Hskip).
  destruct (Hskip 0
    (sample_channel
       [(1%Q, message {["type" := JStr "push"]}); (2%Q, message bare_reply)])
    1%Q {["type" := JStr "push"]} [(2%Q, message bare_reply)])
    as (s' & Hrun & _).
  - reflexivity.
  - reflexivity.
  - reflexivity.
  - reflexivity.
  - vm_compute. reflexivity.
  - vm_compute. reflexivity.
  - exists s'. exact Hrun.
Defined.

(** * The further properties at the examples *)

#[local] Existing Instance sample_errors.

Lemma request_needs_socket_witness :
  ∃ s', perform (CallTool "getCurrentProject" (dict [])) fresh_state
        = (Raise (AttributeError "send"), s').
Proof.
  destruct (request_needs_socket (CallTool "getCurrentProject" (dict []))
    fresh_state) as (s' & Hrun & _).
  - reflexivity.
  - exists s'. exact Hrun.
Defined.

Lemma wait_for_response_no_time_witness :
  wait_for_response first_id 0 (sample_state [(1%Q, message bare_reply)] [])
  = (Raise (TimeoutError ("No response received for message " +:+ first_id)),
     sample_state [(1%Q, message bare_reply)] []).
Proof. apply wait_for_response_no_time. reflexivity. Defined.

Lemma wait_for_response_needs_socket_witness :
  wait_for_response first_id 30 fresh_state
  = (Raise (AttributeError "recv"), fresh_state).
Proof. apply wait_for_response_needs_socket; reflexivity. Defined.

Lemma wait_for_response_returns_first_witness :
  ∃ early t fields rest,
    two_replies = early ++ (t, message fields) :: rest ∧
    fields !! "id" = Some (JStr "a").
Proof.
  edestruct (wait_for_response_returns_first "a" 30 (sample_state two_replies []))
    as (h & c & early & t & fields & rest & Hws & Hch & _ & Hin & _ & _ & Hid & _).
  - vm_compute. reflexivity.
  - injection Hws as <-. injection Hch as <-.
    exists early, t, fields, rest. split; [exact Hin|exact Hid].
Defined.

Lemma wait_for_response_in_order_witness :
  ∃ early1 t1 fields1 early2 t2 fields2 rest,
    two_replies =
      early1 ++ (t1, message fields1) :: early2 ++ (t2, message fields2) :: rest.
Proof.
  edestruct (wait_for_response_in_order "b" "c" 30 30 (sample_state two_replies []))
    as (h & c & early1 & t1 & fields1 & early2 & t2 & fields2 & rest &
        Hws & Hch & Hin & _).
  - vm_compute. reflexivity.
  - vm_compute. reflexivity.
  - injection Hws as <-. injection Hch as <-.
    exists early1, t1, fields1, early2, t2, fields2, rest. exact Hin.
Defined.

Lemma wait_for_response_aborts_witness :
  ∃ s', wait_for_response first_id 30
          (sample_state
             [(1%Q, Deliver (Garbage "oops")); (2%Q, message bare_reply)] [])
        = (Raise JSONDecodeError, s').
Proof.
  destruct (wait_for_response_aborts
    (sample_state [(1%Q, Deliver (Garbage "oops")); (2%Q, message bare_reply)] [])
    0 (sample_channel [(1%Q, Deliver (Garbage "oops")); (2%Q, message bare_reply)])
    first_id 30 [] 1%Q (Deliver (Garbage "oops")) JSONDecodeError
    [(2%Q, message bare_reply)]) as (s' & Hrun & _).
  - reflexivity.
  - reflexivity.
  - reflexivity.
  - reflexivity.
  - constructor.
  - repeat constructor; vm_compute; reflexivity.
  - reflexivity.
  - exists s'. exact Hrun.
Defined.

Lemma reply_missing_field_witness :
  ∃ s2, perform (CallTool "getCurrentProject" (dict []))
          (sample_state [(1%Q, message bare_reply)] [])
        = (Raise (KeyError "type"), s2).
Proof.
  edestruct (reply_missing_field (CallTool "getCurrentProject" (dict []))
    (sample_state [(1%Q, message bare_reply)] [])) as (Hty & _).
  - vm_compute. reflexivity.
  - vm_compute. reflexivity.
  - eexists. apply Hty. vm_compute. reflexivity.
Defined.

Lemma pipeline_errors_unwrapped_witness :
  ∃ msg s2,
    perform (CreatePipeline (dict []))
      (sample_state
         [(1%Q, message (reply_to first_id "tool_error"
                   (dict [("error", dict [("message", JStr "bad spec")])])))] [])
    = (Raise (Exception_ msg), s2).
Proof.
  eexists _, _.
  eapply (pipeline_errors_unwrapped (CreatePipeline (dict []))
    (sample_state
       [(1%Q, message (reply_to first_id "tool_error"
                 (dict [("error", dict [("message", JStr "bad spec")])])))] [])).
  - vm_compute. reflexivity.
  - vm_compute. reflexivity.
  - vm_compute. reflexivity.
  - vm_compute. reflexivity.
  - vm_compute. reflexivity.
  - vm_compute. reflexivity.
Defined.

Lemma error_reply_malformed_witness :
  ∃ s2,
    perform (CreatePipeline (dict []))
      (sample_state
         [(1%Q, message (reply_to first_id "tool_error" (dict [])))] [])
    = (Raise (KeyError "error"), s2).
Proof.
  edestruct (error_reply_malformed (CreatePipeline (dict []))
    (sample_state
       [(1%Q, message (reply_to first_id "tool_error" (dict [])))] []))
    as (Herr & _).
  - vm_compute. reflexivity.
  - vm_compute. reflexivity.
  - vm_compute. reflexivity.
  - vm_compute. reflexivity.
  - eexists. apply Herr. vm_compute. reflexivity.
Defined.

Lemma request_round_trip_witness :
  ∃ s', perform (TestPipeline "p1" [])
          (sample_state
             [(1%Q, message (reply_to first_id "pipeline_result"
                       (dict [("result", JStr "ok")])))] [])
        = (Return (JStr "ok"), s').
Proof.
  edestruct (request_round_trip (TestPipeline "p1" [])
    (sample_state
       [(1%Q, message (reply_to first_id "pipeline_result"
                 (dict [("result", JStr "ok")])))] [])
    0 (sample_channel
       [(1%Q, message (reply_to first_id "pipeline_result"
                 (dict [("result", JStr "ok")])))]))
    as (s' & Hrun & _).
  - reflexivity.
  - reflexivity.
  - reflexivity.
  - reflexivity.
  - vm_compute. reflexivity.
  - vm_compute. reflexivity.
  - vm_compute. reflexivity.
  - vm_compute. reflexivity.
  - vm_compute. reflexivity.
  - exists s'. exact Hrun.
Defined.

Lemma capture_visualization_round_trip_witness :
  ∃ s', capture_visualization "png" (9 # 10)
          (sample_state
             [(1%Q, message (reply_to first_id "tool_result"
                       (dict [("result", dict [("data", JStr "iVBOR")])])))] [])
        = (Return (dict [("data", JStr "iVBOR")]), s').
Proof.
  edestruct (capture_visualization_round_trip "png" (9 # 10)
    (sample_state
       [(1%Q, message (reply_to first_id "tool_result"
                 (dict [("result", dict [("data", JStr "iVBOR")])])))] [])
    0 (sample_channel
       [(1%Q, message (reply_to first_id "tool_result"
                 (dict [("result", dict [("data", JStr "iVBOR")])])))]))
    as (s' & Hrun & _).
  - reflexivity.
  - reflexivity.
  - reflexivity.
  - reflexivity.
  - vm_compute. reflexivity.
  - vm_compute. reflexivity.
  - vm_compute. reflexivity.
  - vm_compute. reflexivity.
  - vm_compute. reflexivity.
  - exists s'. exact Hrun.
Defined.

Lemma connect_refused_witness :
  ∃ s', connect (sample_state [] [Refused]) = (Raise ConnectionRefusedError, s') ∧
        ws (self s') = Some 0.
Proof.
  destruct (connect_refused (sample_state [] [Refused]))
    as (s' & Hrun & Hself & _).
  - intros script ds. discriminate.
  - exists s'. split; [exact Hrun|]. rewrite Hself. reflexivity.
Defined.

Lemma main_releases_witness :
  ∃ s' c, main fresh_state_garbled = (Return tt, s') ∧
          ws (self s') = None ∧
          chans (env s') !! 0%nat = Some c ∧ is_open c = false.
Proof.
  assert (main fresh_state_garbled = (Return tt, (main fresh_state_garbled).2))
    as Hrun by (vm_compute; reflexivity).
  destruct (main_releases fresh_state_garbled _ Hrun) as (Hws & _ & Hclosed).
  exists (main fresh_state_garbled).2,
    {| peer := "ws://localhost:8765"; is_open := false; inbound := [] |}.
  split; [exact Hrun|]. split; [exact Hws|].
  assert (chans (env (main fresh_state_garbled).2) !! 0%nat =
    Some {| peer := "ws://localhost:8765"; is_open := false; inbound := [] |})
    as Hsocket by (vm_compute; reflexivity).
  split; [exact Hsocket|].
  apply (Hclosed 0%nat _ (le_n 0) Hsocket).
Defined.

Lemma main_connection_refused_witness :
  ∃ s', main fresh_state = (Return tt, s') ∧ outbox (env s') = [].
Proof.
  destruct (main_connection_refused fresh_state) as (s' & Hrun & Hout & _).
  - intros script ds. discriminate.
  - exists s'. split; [exact Hrun|exact Hout].
Defined.

Lemma connect_handshake_witness :
  ∃ s', connect fresh_state_dialing = (Return tt, s') ∧ ws (self s') = Some 0.
Proof.
  destruct (connect_handshake fresh_state_dialing [] []) as (s' & Hrun & Hws & _).
  - reflexivity.
  - exists s'. split; [exact Hrun|exact Hws].
Defined.

Lemma main_completes_witness :
  ∃ s' before,
    main fresh_state_served = (Return tt, s') ∧
    stdout (env s') = before ++
      ["Test result: Success"; nl +:+ "Pipeline creation complete!";
       nl +:+ "Disconnecting..."].
Proof.
  destruct (main_completes fresh_state_served four_replies [] []
    1 (reply_to (make_id 2 0) "pipeline_created"
         (dict [("result", dict [("pipelineId", JStr "p1")])]))
    (JStr "pipeline_created") {["result" := dict [("pipelineId", JStr "p1")]]}
    {["pipelineId" := JStr "p1"]} (JStr "p1")
    4 (reply_to (make_id 3 (1 + 2)) "tool_result"
         (dict [("result", dict [("data", JStr "AAAA")])]))
    (JStr "tool_result") {["result" := dict [("data", JStr "AAAA")]]}
    {["data" := JStr "AAAA"]} "AAAA"
    5 (reply_to (make_id 4 4) "tool_result"
         (dict [("result", dict [("nodes", JArr [JStr "n1"]); ("edges", JArr [])])]))
    (JStr "tool_result")
    {["result" := dict [("nodes", JArr [JStr "n1"]); ("edges", JArr [])]]}
    (list_to_map [("nodes", JArr [JStr "n1"]); ("edges", JArr [])])
    [JStr "n1"] []
    6 (reply_to (make_id 5 5) "pipeline_tested"
         (dict [("result", dict [("success", JBool true)])]))
    (JStr "pipeline_tested") {["result" := dict [("success", JBool true)]]}
    {["success" := JBool true]} (JBool true))
    as (s' & sent & before & Hrun & _ & _ & _ & Hprinted).
  all: try (vm_compute; reflexivity).
  exists s', before. split; [exact Hrun|exact Hprinted].
Defined.

Lemma debug_only_prints_witness :
  let loud :=
    {| self := {| host := "localhost"; port := 8765; debug := true;
                  ws := Some 0; message_id := 0 |};
       env := env (sample_state two_replies []) |} in
  (wait_for_response "a" 30 loud).1 =
  (wait_for_response "a" 30 (sample_state two_replies [])).1.
Proof.
  intros loud.
  destruct (debug_only_prints loud (sample_state two_replies []))
    as (_ & _ & _ & Hwait & _).
  - vm_compute. repeat split; reflexivity.
  - split; [reflexivity|]. intros h c [= <-] [= <-]. vm_compute. reflexivity.
  - apply (Hwait "a" 30%Z).
Defined.
